(** * Clock: a validated 24-hour time of day

    Shallow embedding of [OOP/multi-inheritance/clock.py] and the proofs of
    its specification.

    The class keeps three attributes, [hours], [minutes] and [seconds].
    Methods are modelled as computations over the attribute store of the
    receiver: a computation takes the store and gives back the store it
    leaves behind together with either a returned value or the exception
    that was raised.  Assignments are modelled one by one, so that "a failed
    call changes nothing" is a property of the order of the statements and
    not of the shape of the model. *)

From Stdlib Require Import ZArith List String Ascii Bool Lia DecimalString.
From Equations Require Import Equations.
Import ListNotations.
Open Scope string_scope.
Open Scope Z_scope.

(** ** Python values *)

(** The instances of [int]: integers proper and the two instances of the
    subtype [bool].  [isinstance(x, int)] holds for both. *)
Inductive pyint : Type :=
| PInt (z : Z)
| PBool (b : bool).

(** The values a caller can pass.  What matters for the values that are not
    instances of [int] is only that they are not. *)
Inductive pyval : Type :=
| VInt (i : pyint)
| VFloat (mantissa exponent : Z)
| VStr (s : string)
| VNone.

(** Numeric value of an instance of [int]: [True] is 1 and [False] is 0. *)
Definition int_val (i : pyint) : Z :=
  match i with
  | PInt z => z
  | PBool b => Z.b2z b
  end.

(** [isinstance(x, int)], giving the instance when it holds. *)
Definition as_int (v : pyval) : option pyint :=
  match v with
  | VInt i => Some i
  | _ => None
  end.

Definition isinstance_int (v : pyval) : bool :=
  match as_int v with
  | Some _ => true
  | None => false
  end.

(** An [int] object proper, as produced by arithmetic. *)
Definition py_int (z : Z) : pyval := VInt (PInt z).

(** ** Exceptions and outcomes *)

Inductive exn : Type :=
| TypeError (msg : string)
| ValueError (msg : string)
| AttributeError (attr : string).

Inductive outcome (A : Type) : Type :=
| Return (a : A)
| Raise (e : exn).
Arguments Return {A} a.
Arguments Raise {A} e.

Definition is_TypeError {A} (o : outcome A) : bool :=
  match o with
  | Raise (TypeError _) => true
  | _ => false
  end.

Definition is_ValueError {A} (o : outcome A) : bool :=
  match o with
  | Raise (ValueError _) => true
  | _ => false
  end.

Definition is_Return {A} (o : outcome A) : bool :=
  match o with
  | Return _ => true
  | Raise _ => false
  end.

(** ** The attribute store of an instance *)

(** An attribute is absent until [set_clock] assigns it.  [set_clock] is the
    only writer and it assigns after its [isinstance] test, so an attribute
    that is present holds an instance of [int]. *)
Record Clock : Type := mkClock {
  hours : option pyint;
  minutes : option pyint;
  seconds : option pyint
}.

(** The store of an instance that [__init__] has not yet touched. *)
Definition fresh : Clock := mkClock None None None.

(** A fully initialised instance with the given attributes. *)
Definition clock_of (h m s : pyint) : Clock :=
  mkClock (Some h) (Some m) (Some s).

(** ** Method bodies: state and exceptions *)

Definition M (A : Type) : Type := Clock -> Clock * outcome A.

Definition ret {A} (a : A) : M A := fun self => (self, Return a).

Definition raise {A} (e : exn) : M A := fun self => (self, Raise e).

Definition bind {A B} (c : M A) (k : A -> M B) : M B :=
  fun self =>
    match c self with
    | (self', Return a) => k a self'
    | (self', Raise e) => (self', Raise e)
    end.

Notation "x <- c ;; k" := (bind c (fun x => k))
  (at level 61, c at next level, right associativity).
Notation "c ;; k" := (bind c (fun _ => k))
  (at level 61, right associativity).

(** [self.hours], [self.minutes], [self.seconds] as expressions. *)
Definition get_attr (name : string) (proj : Clock -> option pyint) : M pyint :=
  fun self =>
    match proj self with
    | Some v => (self, Return v)
    | None => (self, Raise (AttributeError name))
    end.

Definition get_hours : M pyint := get_attr "hours" hours.
Definition get_minutes : M pyint := get_attr "minutes" minutes.
Definition get_seconds : M pyint := get_attr "seconds" seconds.

(** [self.hours = v] and its two siblings. *)
Definition set_hours (v : pyint) : M unit :=
  fun self => (mkClock (Some v) (minutes self) (seconds self), Return tt).
Definition set_minutes (v : pyint) : M unit :=
  fun self => (mkClock (hours self) (Some v) (seconds self), Return tt).
Definition set_seconds (v : pyint) : M unit :=
  fun self => (mkClock (hours self) (minutes self) (Some v), Return tt).

(** ** [Clock.set_clock] *)

(** The chained comparison [lo <= x < hi]. *)
Definition in_range (lo : Z) (x : pyint) (hi : Z) : bool :=
  (lo <=? int_val x) && (int_val x <? hi).

(** The first [match] is the test [all(isinstance(x, int) for x in (hours,
    minutes, seconds))]: it reaches its last branch exactly when one of the
    three is not an instance of [int].  The method returns [self]; the
    receiver is the threaded store, so the returned value carries no further
    information. *)
Definition set_clock (hours minutes seconds : pyval) : M unit :=
  match as_int hours, as_int minutes, as_int seconds with
  | Some h, Some m, Some s =>
      if negb (in_range 0 h 24) then
        raise (ValueError "Hours must be between 0 and 23")
      else if negb (in_range 0 m 60) then
        raise (ValueError "Minutes must be between 0 and 59")
      else if negb (in_range 0 s 60) then
        raise (ValueError "Seconds must be between 0 and 59")
      else
        set_hours h ;;
        set_minutes m ;;
        set_seconds s ;;
        ret tt
  | _, _, _ => raise (TypeError "All time components must be integers")
  end.

(** ** The normalisation loop *)

(** [while total_seconds < 0: total_seconds += 24 * 3600]. *)
Equations? while_negative (total_seconds : Z) : Z
  by wf (Z.to_nat (- total_seconds)) lt :=
  while_negative total_seconds with Z_lt_dec total_seconds 0 := {
    | left _ => while_negative (total_seconds + 24 * 3600)
    | right _ => total_seconds }.
Proof. lia. Qed.

(** ** Calls and construction *)

(** An argument of a call: [None] when the caller leaves it out. *)
Definition arg : Type := option pyval.

Definition with_default (d : pyval) (a : arg) : pyval :=
  match a with
  | Some v => v
  | None => d
  end.

(** [def __init__(self, hours=0, minutes=0, seconds=0)]. *)
Definition __init__ (hours minutes seconds : arg) : M unit :=
  set_clock (with_default (py_int 0) hours)
            (with_default (py_int 0) minutes)
            (with_default (py_int 0) seconds) ;;
  ret tt.

(** The expression [Clock(...)]: a new instance is allocated, [__init__]
    runs on it, and the instance is the value of the expression only when
    [__init__] returns. *)
Definition Clock_new (hours minutes seconds : arg) : outcome Clock :=
  match __init__ hours minutes seconds fresh with
  | (self, Return _) => Return self
  | (_, Raise e) => Raise e
  end.

(** [Clock(h, m, s)] with the three arguments given. *)
Definition Clock_of_args (h m s : pyval) : outcome Clock :=
  Clock_new (Some h) (Some m) (Some s).

(** A call [self.set_clock(...)].  [def set_clock(self, hours, minutes,
    seconds)] declares no default, so the interpreter refuses a call that
    leaves an argument out before the body runs (the wording of its message
    depends on the interpreter's version). *)
Definition call_set_clock (hours minutes seconds : arg) : M unit :=
  match hours, minutes, seconds with
  | Some h, Some m, Some s => set_clock h m s
  | _, _, _ =>
      raise (TypeError "set_clock() missing required positional argument")
  end.

(** ** [Clock.add_seconds] *)

(** The four lines after the reduction modulo a day. *)
Definition decompose (total_seconds : Z) : Z * Z * Z :=
  let hours := total_seconds / 3600 in
  let remaining := total_seconds mod 3600 in
  let minutes := remaining / 60 in
  let seconds := remaining mod 60 in
  (hours, minutes, seconds).

Definition add_seconds (seconds_to_add : pyval) : M unit :=
  match as_int seconds_to_add with
  | None => raise (TypeError "Seconds to add must be an integer")
  | Some d =>
      h <- get_hours ;;
      m <- get_minutes ;;
      s <- get_seconds ;;
      let total_seconds := int_val h * 3600 + int_val m * 60 + int_val s in
      let total_seconds := total_seconds + int_val d in
      let total_seconds := while_negative total_seconds in
      let total_seconds := total_seconds mod (24 * 3600) in
      let '(hours, minutes, seconds) := decompose total_seconds in
      set_clock (py_int hours) (py_int minutes) (py_int seconds)
  end.

(** ** [Clock.to_seconds] and [Clock.from_seconds] *)

Definition to_seconds : M Z :=
  h <- get_hours ;;
  m <- get_minutes ;;
  s <- get_seconds ;;
  ret (int_val h * 3600 + int_val m * 60 + int_val s).

Definition from_seconds (total_seconds : pyval) : outcome Clock :=
  match as_int total_seconds with
  | None => Raise (TypeError "Total seconds must be an integer")
  | Some t =>
      let total_seconds := while_negative (int_val t) in
      let total_seconds := total_seconds mod (24 * 3600) in
      let '(hours, minutes, seconds) := decompose total_seconds in
      Clock_of_args (py_int hours) (py_int minutes) (py_int seconds)
  end.

(** ** [Clock.__eq__] *)

(** The right operand of a comparison: another instance of the class, or a
    value of another type. *)
Inductive pyobj : Type :=
| OClock (c : Clock)
| OVal (v : pyval).

Inductive eq_result : Type :=
| NotImplemented
| Bool (b : bool).

(** [other.hours] and its siblings: a read of another instance's store. *)
Definition attr_of (other : Clock) (name : string)
    (proj : Clock -> option pyint) : M pyint :=
  fun self =>
    match proj other with
    | Some v => (self, Return v)
    | None => (self, Raise (AttributeError name))
    end.

(** [==] on two instances of [int]. *)
Definition int_eq (a b : pyint) : bool := int_val a =? int_val b.

(** [and] evaluates its right operand only when the left one is true. *)
Definition __eq__ (other : pyobj) : M eq_result :=
  match other with
  | OVal _ => ret NotImplemented
  | OClock o =>
      h <- get_hours ;;
      oh <- attr_of o "hours" hours ;;
      if negb (int_eq h oh) then ret (Bool false) else
      m <- get_minutes ;;
      om <- attr_of o "minutes" minutes ;;
      if negb (int_eq m om) then ret (Bool false) else
      s <- get_seconds ;;
      os <- attr_of o "seconds" seconds ;;
      ret (Bool (int_eq s os))
  end.

(** ** [Clock.__hash__] *)

Section Hashing.

(** The built-in [hash] belongs to the interpreter.  It is taken here in
    two parts: the hash of an instance of [int] is a function of its numeric
    value (so [hash(True) == hash(1)]), and the hash of a tuple is a function
    of the hashes of its items. *)
Variable hash_int : Z -> Z.
Variable hash_tuple : list Z -> Z.

Definition __hash__ : M Z :=
  h <- get_hours ;;
  m <- get_minutes ;;
  s <- get_seconds ;;
  ret (hash_tuple [hash_int (int_val h); hash_int (int_val m);
                   hash_int (int_val s)]).

End Hashing.

(** A model of the built-in on 64-bit CPython 3.8 and later, to run the
    examples: integers hash to their value reduced modulo the Mersenne prime
    [2^61 - 1] (never to -1), tuples by the interpreter's variant of xxHash
    over machine words. *)
Module CPython.

Definition XXPRIME_1 : Z := 11400714785074694791.
Definition XXPRIME_2 : Z := 14029467366897019727.
Definition XXPRIME_5 : Z := 2870177450012600261.

(** Truncation to an unsigned 64-bit word. *)
Definition u64 (x : Z) : Z := Z.land x (Z.ones 64).

(** Rotation to the left by 31 bits. *)
Definition XXROTATE (x : Z) : Z :=
  u64 (Z.lor (Z.shiftl x 31) (Z.shiftr x 33)).

Definition hash_int (n : Z) : Z :=
  let r := Z.sgn n * (Z.abs n mod (2 ^ 61 - 1)) in
  if r =? -1 then -2 else r.

Definition hash_tuple (items : list Z) : Z :=
  let lane_step acc lane :=
    let acc := u64 (acc + u64 lane * XXPRIME_2) in
    let acc := XXROTATE acc in
    u64 (acc * XXPRIME_1) in
  let acc := fold_left lane_step items XXPRIME_5 in
  let len := Z.of_nat (List.length items) in
  let acc := u64 (acc + Z.lxor len (Z.lxor XXPRIME_5 3527539)) in
  if acc =? Z.ones 64 then 1546275796
  else if acc <? 2 ^ 63 then acc
  else acc - 2 ^ 64.

End CPython.

(** ** [Clock.__str__] and [Clock.__repr__] *)

(** [str] of an integer: its decimal digits, with a sign when negative. *)
Definition py_str_int (z : Z) : string :=
  NilZero.string_of_int (Z.to_int z).

(** [str] of an instance of [int], which is what [{x}] in an f-string
    inserts: the two instances of [bool] print as words. *)
Definition py_str (i : pyint) : string :=
  match i with
  | PInt z => py_str_int z
  | PBool true => "True"
  | PBool false => "False"
  end.

Fixpoint zeros (n : nat) : string :=
  match n with
  | O => ""
  | S n' => String "0" (zeros n')
  end.

(** [{x:02d}]: the decimal digits of the numeric value ([bool] included),
    filled with zeros between the sign and the digits up to a width of two
    characters, and never truncated. *)
Definition format_02d (i : pyint) : string :=
  let z := int_val i in
  let digits := py_str_int (Z.abs z) in
  let sign := if z <? 0 then "-" else "" in
  sign ++ zeros (2 - String.length sign - String.length digits) ++ digits.

Definition __str__ : M string :=
  h <- get_hours ;;
  m <- get_minutes ;;
  s <- get_seconds ;;
  ret (format_02d h ++ ":" ++ format_02d m ++ ":" ++ format_02d s).

Definition __repr__ : M string :=
  h <- get_hours ;;
  m <- get_minutes ;;
  s <- get_seconds ;;
  ret ("Clock(" ++ py_str h ++ ", " ++ py_str m ++ ", " ++ py_str s ++ ")").

(** ** Running a method on an instance *)

(** The store a method leaves behind and what it gave. *)
Definition state_after {A} (c : M A) (self : Clock) : Clock := fst (c self).
Definition result_of {A} (c : M A) (self : Clock) : outcome A := snd (c self).

(** ** Evaluating a constructor call

    What [eval] does with the text that [__repr__] produces, restricted to
    the texts of the form [Clock(a, b, c)] whose arguments are decimal
    integer literals or the words [True] and [False]. *)

Fixpoint strip_prefix (p s : string) : option string :=
  match p with
  | EmptyString => Some s
  | String c p' =>
      match s with
      | String d s' => if Ascii.eqb c d then strip_prefix p' s' else None
      | EmptyString => None
      end
  end.

Definition is_digit (c : ascii) : bool :=
  ((48 <=? nat_of_ascii c) && (nat_of_ascii c <=? 57))%nat.

Definition digit_value (c : ascii) : Z := Z.of_nat (nat_of_ascii c - 48).

(** The longest run of digits at the head of [s], read in base ten. *)
Fixpoint read_digits (s : string) (acc : Z) : Z * string :=
  match s with
  | String c s' =>
      if is_digit c then read_digits s' (10 * acc + digit_value c)
      else (acc, s)
  | EmptyString => (acc, s)
  end.

Definition read_number (s : string) : option (Z * string) :=
  match s with
  | String c _ => if is_digit c then Some (read_digits s 0) else None
  | EmptyString => None
  end.

Definition read_literal (s : string) : option (pyval * string) :=
  match strip_prefix "True" s with
  | Some rest => Some (VInt (PBool true), rest)
  | None =>
  match strip_prefix "False" s with
  | Some rest => Some (VInt (PBool false), rest)
  | None =>
  match strip_prefix "-" s with
  | Some s' =>
      match read_number s' with
      | Some (n, rest) => Some (py_int (- n), rest)
      | None => None
      end
  | None =>
      match read_number s with
      | Some (n, rest) => Some (py_int n, rest)
      | None => None
      end
  end end end.

(** [None] when the text is not of the expected form; otherwise what the
    constructor gives on the three arguments read. *)
Definition eval_constructor_call (text : string) : option (outcome Clock) :=
  match strip_prefix "Clock(" text with
  | None => None
  | Some s1 =>
  match read_literal s1 with
  | None => None
  | Some (h, s2) =>
  match strip_prefix ", " s2 with
  | None => None
  | Some s3 =>
  match read_literal s3 with
  | None => None
  | Some (m, s4) =>
  match strip_prefix ", " s4 with
  | None => None
  | Some s5 =>
  match read_literal s5 with
  | None => None
  | Some (s, s6) =>
      if String.eqb s6 ")" then Some (Clock_of_args h m s) else None
  end end end end end end.

(** ** The invariant and the specification's own notions *)

Definition field_within (lo hi : Z) (f : option pyint) : bool :=
  match f with
  | Some x => (lo <=? int_val x) && (int_val x <=? hi)
  | None => false
  end.

(** The three attributes are present and denote a time of day. *)
Definition validb (c : Clock) : bool :=
  field_within 0 23 (hours c) && field_within 0 59 (minutes c)
  && field_within 0 59 (seconds c).

Definition valid (c : Clock) : Prop := validb c = true.

(** The instances a program can hold when it only uses the constructor, the
    factory and the two mutating methods.  A call that raises leaves the
    instance in the program's hands too, with whatever store it then has. *)
Inductive reachable : Clock -> Prop :=
| reach_new h m s c :
    Clock_new h m s = Return c -> reachable c
| reach_from_seconds t c :
    from_seconds t = Return c -> reachable c
| reach_set_clock h m s c :
    reachable c -> reachable (state_after (call_set_clock h m s) c)
| reach_add_seconds d c :
    reachable c -> reachable (state_after (add_seconds d) c).

(** Floored modulo as the specification words it: the remainder left by the
    division rounded towards minus infinity. *)
Definition floor_mod (a n : Z) : Z := a - n * (a / n).

(** Seconds since midnight of a triple. *)
Definition seconds_of (h m s : pyint) : Z :=
  int_val h * 3600 + int_val m * 60 + int_val s.

(** The instance whose attributes are [int] objects with the given values. *)
Definition clock_of_Z (h m s : Z) : Clock := clock_of (PInt h) (PInt m) (PInt s).

(** The time of day that lies [t] seconds after a midnight, [t] of any sign. *)
Definition time_of_day (t : Z) : Clock :=
  let r := floor_mod t 86400 in
  clock_of_Z (r / 3600) (r mod 3600 / 60) (r mod 60).

(** Two decimal digits. *)
Definition digit_char (d : Z) : ascii := ascii_of_nat (48 + Z.to_nat d).

Definition two_digits (n : Z) : string :=
  String (digit_char (n / 10)) (String (digit_char (n mod 10)) "").

(** Decimal digits without padding, for a number below one hundred. *)
Definition unpadded (n : Z) : string :=
  if n <? 10 then String (digit_char n) "" else two_digits n.

(** The exception of the type test of [set_clock]. *)
Definition type_error_components : exn :=
  TypeError "All time components must be integers".

(** The rendering of a field as the specification describes it: decimal
    digits without padding for an [int], the word for a [bool]. *)
Definition field_text (i : pyint) : string :=
  match i with
  | PInt z => unpadded z
  | PBool true => "True"
  | PBool false => "False"
  end.

(** A literal is read back up to the comma or the parenthesis after it. *)
Definition closes_literal (c : ascii) : bool :=
  (Ascii.eqb c "," || Ascii.eqb c ")")%bool.

(** ** Worked scenarios *)

Example scenario_add_3665 :
  add_seconds (py_int 3665) (clock_of (PInt 12) (PInt 30) (PInt 45))
  = (clock_of (PInt 13) (PInt 31) (PInt 50), Return tt).
Proof. reflexivity. Qed.

Example scenario_str :
  result_of __str__ (clock_of (PInt 8) (PInt 30) (PInt 5)) = Return "08:30:05".
Proof. reflexivity. Qed.

Example scenario_repr :
  result_of __repr__ (clock_of (PInt 8) (PInt 30) (PInt 5))
  = Return "Clock(8, 30, 5)".
Proof. reflexivity. Qed.

Example scenario_midnight :
  from_seconds (py_int 0) = Return (clock_of (PInt 0) (PInt 0) (PInt 0)).
Proof. reflexivity. Qed.

Example scenario_rollover :
  state_after (add_seconds (py_int 1)) (clock_of (PInt 23) (PInt 59) (PInt 59))
  = clock_of (PInt 0) (PInt 0) (PInt 0).
Proof. reflexivity. Qed.

Example scenario_hash :
  result_of (__hash__ CPython.hash_int CPython.hash_tuple)
            (clock_of (PInt 9) (PInt 30) (PInt 0))
  = Return 7730954187598327309.
Proof. reflexivity. Qed.

Example scenario_negative_rollover :
  state_after (add_seconds (py_int (-1))) (clock_of_Z 0 0 0)
  = clock_of_Z 23 59 59.
Proof. reflexivity. Qed.

Example scenario_eval_repr :
  eval_constructor_call "Clock(8, 30, 5)" = Some (Return (clock_of_Z 8 30 5)).
Proof. reflexivity. Qed.

Example scenario_eval_repr_bool :
  eval_constructor_call "Clock(True, False, False)"
  = Some (Return (clock_of (PBool true) (PBool false) (PBool false))).
Proof. reflexivity. Qed.

Example scenario_equal :
  result_of (__eq__ (OClock (clock_of_Z 9 30 0))) (clock_of_Z 9 30 0)
  = Return (Bool true)
  /\ result_of (__eq__ (OClock (clock_of_Z 10 15 0))) (clock_of_Z 9 30 0)
     = Return (Bool false).
Proof. split; reflexivity. Qed.

(** ** Basic facts *)

Lemma field_within_spec lo hi x :
  field_within lo hi (Some x) = true <-> lo <= int_val x <= hi.
Proof.
  unfold field_within. rewrite andb_true_iff, Z.leb_le, Z.leb_le. tauto.
Qed.

Lemma valid_clock_of h m s :
  valid (clock_of h m s) <->
  0 <= int_val h <= 23 /\ 0 <= int_val m <= 59 /\ 0 <= int_val s <= 59.
Proof.
  unfold valid, validb, clock_of; cbn [hours minutes seconds].
  rewrite !andb_true_iff, !field_within_spec. tauto.
Qed.

Lemma valid_inv c :
  valid c ->
  exists h m s, c = clock_of h m s /\
    0 <= int_val h <= 23 /\ 0 <= int_val m <= 59 /\ 0 <= int_val s <= 59.
Proof.
  destruct c as [[h|] [m|] [s|]]; intros V;
    try (unfold valid, validb in V; cbn in V;
         rewrite ?andb_false_r in V; discriminate).
  exists h, m, s. split; [reflexivity | now apply valid_clock_of].
Qed.

Lemma in_range_spec lo x hi :
  in_range lo x hi = true <-> lo <= int_val x < hi.
Proof.
  unfold in_range. rewrite andb_true_iff, Z.leb_le, Z.ltb_lt. tauto.
Qed.

(** *** [set_clock] case by case *)

Lemma isinstance_all_false h m s :
  forallb isinstance_int [h; m; s] = false <->
  as_int h = None \/ as_int m = None \/ as_int s = None.
Proof.
  unfold isinstance_int; cbn [forallb].
  destruct (as_int h), (as_int m), (as_int s); cbn; intuition congruence.
Qed.

Lemma set_clock_not_int h m s self :
  forallb isinstance_int [h; m; s] = false ->
  set_clock h m s self = (self, Raise type_error_components).
Proof.
  intros H. apply isinstance_all_false in H. unfold set_clock.
  destruct (as_int h), (as_int m), (as_int s);
    solve [reflexivity | destruct H as [H|[H|H]]; discriminate].
Qed.

Lemma set_clock_ints h m s self :
  set_clock (VInt h) (VInt m) (VInt s) self =
  if negb (in_range 0 h 24) then
    (self, Raise (ValueError "Hours must be between 0 and 23"))
  else if negb (in_range 0 m 60) then
    (self, Raise (ValueError "Minutes must be between 0 and 59"))
  else if negb (in_range 0 s 60) then
    (self, Raise (ValueError "Seconds must be between 0 and 59"))
  else (clock_of h m s, Return tt).
Proof.
  unfold set_clock; cbn [as_int].
  destruct (in_range 0 h 24), (in_range 0 m 60), (in_range 0 s 60);
    reflexivity.
Qed.

Lemma set_clock_ok h m s self :
  0 <= int_val h <= 23 -> 0 <= int_val m <= 59 -> 0 <= int_val s <= 59 ->
  set_clock (VInt h) (VInt m) (VInt s) self = (clock_of h m s, Return tt).
Proof.
  intros Hh Hm Hs. rewrite set_clock_ints.
  assert (in_range 0 h 24 = true) as -> by (apply in_range_spec; lia).
  assert (in_range 0 m 60 = true) as -> by (apply in_range_spec; lia).
  assert (in_range 0 s 60 = true) as -> by (apply in_range_spec; lia).
  reflexivity.
Qed.

(** Whatever the arguments and the store, [set_clock] either raises and
    leaves the store alone, or returns and leaves a valid store holding its
    three arguments. *)
Lemma set_clock_cases h m s self :
  (exists e, set_clock h m s self = (self, Raise e)
             /\ (is_TypeError (@Raise unit e) || is_ValueError (@Raise unit e)) = true)
  \/ (exists ih im is_,
        h = VInt ih /\ m = VInt im /\ s = VInt is_ /\
        valid (clock_of ih im is_) /\
        set_clock h m s self = (clock_of ih im is_, Return tt)).
Proof.
  destruct (forallb isinstance_int [h; m; s]) eqn:T.
  - destruct h as [ih| | |], m as [im| | |], s as [is_| | |];
      try discriminate T.
    rewrite set_clock_ints.
    destruct (in_range 0 ih 24) eqn:Rh; cbn [negb];
      [|left; eexists; split; reflexivity].
    destruct (in_range 0 im 60) eqn:Rm; cbn [negb];
      [|left; eexists; split; reflexivity].
    destruct (in_range 0 is_ 60) eqn:Rs; cbn [negb];
      [|left; eexists; split; reflexivity].
    right. exists ih, im, is_. repeat split; try reflexivity.
    apply in_range_spec in Rh, Rm, Rs. apply valid_clock_of. lia.
  - left. eexists. split; [now apply set_clock_not_int | reflexivity].
Qed.

(** *** The loop and the remainder *)

Lemma while_negative_spec t :
  0 <= while_negative t /\
  exists k, 0 <= k /\ while_negative t = t + k * 86400.
Proof.
  funelim (while_negative t).
  - destruct H as [Hnn [k [Hk Hw]]].
    split; [assumption|].
    exists (k + 1). split; [lia|]. rewrite Hw. lia.
  - split; [lia|]. exists 0. lia.
Qed.

Lemma while_negative_nonneg t : 0 <= t -> while_negative t = t.
Proof.
  intros H. simp while_negative. destruct (Z_lt_dec t 0); [lia|reflexivity].
Qed.

Lemma floor_mod_eq a n : n <> 0 -> floor_mod a n = a mod n.
Proof. intros H. unfold floor_mod. rewrite Z.mod_eq by assumption. reflexivity. Qed.

(** The loop followed by the remainder is the floored modulo. *)
Lemma normalize_floor_mod t :
  while_negative t mod (24 * 3600) = floor_mod t 86400.
Proof.
  destruct (while_negative_spec t) as [_ [k [_ Hw]]].
  rewrite floor_mod_eq by lia. rewrite Hw.
  change (24 * 3600) with 86400. apply Z_mod_plus_full.
Qed.

Lemma floor_mod_range t : 0 <= floor_mod t 86400 < 86400.
Proof. rewrite floor_mod_eq by lia. apply Z.mod_pos_bound. lia. Qed.

Lemma decompose_range t :
  0 <= t < 86400 ->
  let '(h, m, s) := decompose t in
  0 <= h <= 23 /\ 0 <= m <= 59 /\ 0 <= s <= 59 /\ h * 3600 + m * 60 + s = t.
Proof.
  intros Ht. unfold decompose. Z.div_mod_to_equations. lia.
Qed.

(** *** What each method computes on an initialised instance *)

Lemma time_of_day_valid t : valid (time_of_day t).
Proof.
  unfold time_of_day, clock_of_Z. apply valid_clock_of. cbn [int_val].
  pose proof (floor_mod_range t) as R.
  Z.div_mod_to_equations. lia.
Qed.

Lemma set_clock_time_of_day t self :
  (let '(h, m, s) := decompose (while_negative t mod (24 * 3600)) in
   set_clock (py_int h) (py_int m) (py_int s)) self
  = (time_of_day t, Return tt).
Proof.
  rewrite normalize_floor_mod.
  pose proof (floor_mod_range t) as R.
  unfold decompose, py_int, time_of_day, clock_of_Z.
  set (r := floor_mod t 86400) in *.
  replace (r mod 60) with (r mod 3600 mod 60)
    by (Z.div_mod_to_equations; lia).
  apply set_clock_ok; cbn [int_val]; Z.div_mod_to_equations; lia.
Qed.

Lemma add_seconds_run h m s d :
  add_seconds (VInt d) (clock_of h m s)
  = (time_of_day (seconds_of h m s + int_val d), Return tt).
Proof.
  unfold add_seconds; cbn [as_int].
  unfold bind, get_hours, get_minutes, get_seconds, get_attr, clock_of.
  cbn [hours minutes seconds].
  apply (set_clock_time_of_day (seconds_of h m s + int_val d)).
Qed.

Lemma add_seconds_not_int d self :
  as_int d = None ->
  add_seconds d self
  = (self, Raise (TypeError "Seconds to add must be an integer")).
Proof. intros H. unfold add_seconds. rewrite H. reflexivity. Qed.

Lemma Clock_of_args_eq h m s :
  Clock_of_args h m s =
  match set_clock h m s fresh with
  | (self, Return _) => Return self
  | (_, Raise e) => Raise e
  end.
Proof.
  unfold Clock_of_args, Clock_new, __init__, with_default, bind, ret.
  destruct (set_clock h m s fresh) as [self [[]|e]]; reflexivity.
Qed.

Lemma Clock_of_args_ok h m s :
  0 <= int_val h <= 23 -> 0 <= int_val m <= 59 -> 0 <= int_val s <= 59 ->
  Clock_of_args (VInt h) (VInt m) (VInt s) = Return (clock_of h m s).
Proof.
  intros Hh Hm Hs. rewrite Clock_of_args_eq, set_clock_ok by assumption.
  reflexivity.
Qed.

Lemma Clock_new_Return h m s c :
  Clock_new h m s = Return c -> valid c.
Proof.
  unfold Clock_new, __init__, bind, ret.
  set (a := with_default _ h). set (b := with_default _ m).
  set (d := with_default _ s).
  destruct (set_clock_cases a b d fresh)
    as [[e [E _]] | [ih [im [is_ [_ [_ [_ [V E]]]]]]]]; rewrite E.
  - discriminate.
  - intros [= <-]. exact V.
Qed.

Lemma from_seconds_run t :
  from_seconds (VInt t) = Return (time_of_day (int_val t)).
Proof.
  unfold from_seconds; cbn [as_int].
  pose proof (set_clock_time_of_day (int_val t) fresh) as S.
  destruct (decompose (while_negative (int_val t) mod (24 * 3600)))
    as [[h m] s].
  rewrite Clock_of_args_eq, S. reflexivity.
Qed.

Lemma from_seconds_not_int t :
  as_int t = None ->
  from_seconds t = Raise (TypeError "Total seconds must be an integer").
Proof. intros H. unfold from_seconds. rewrite H. reflexivity. Qed.

Lemma to_seconds_run h m s :
  to_seconds (clock_of h m s) = (clock_of h m s, Return (seconds_of h m s)).
Proof. reflexivity. Qed.

Lemma seconds_of_time_of_day t :
  result_of to_seconds (time_of_day t) = Return (floor_mod t 86400).
Proof.
  unfold time_of_day, clock_of_Z, result_of. rewrite to_seconds_run.
  unfold seconds_of; cbn [snd int_val]. f_equal.
  Z.div_mod_to_equations. lia.
Qed.

Lemma eq_run h m s h' m' s' :
  __eq__ (OClock (clock_of h' m' s')) (clock_of h m s)
  = (clock_of h m s,
     Return (Bool (int_eq h h' && int_eq m m' && int_eq s s'))).
Proof.
  unfold __eq__, bind, get_hours, get_minutes, get_seconds, get_attr,
    attr_of, clock_of, ret.
  cbn [hours minutes seconds].
  destruct (int_eq h h'); cbn [negb andb hours minutes seconds];
    [|reflexivity].
  destruct (int_eq m m'); cbn [negb andb hours minutes seconds]; reflexivity.
Qed.

Lemma int_eq_spec a b : int_eq a b = true <-> int_val a = int_val b.
Proof. unfold int_eq. apply Z.eqb_eq. Qed.

(** *** Rendering and reading back the fields of a valid clock *)

Lemma below_60_cases (P : Z -> Prop) :
  (forall n : nat, (n < 60)%nat -> P (Z.of_nat n)) ->
  forall z, 0 <= z <= 59 -> P z.
Proof.
  intros H z Hz. rewrite <- (Z2Nat.id z) by lia. apply H. lia.
Qed.

Ltac below_60 z :=
  let n := fresh "n" in
  let Hn := fresh "Hn" in
  pattern z; apply below_60_cases; [|lia];
  intros n Hn;
  do 60 (destruct n as [|n]; [vm_compute; reflexivity|]);
  exfalso; lia.

Lemma py_str_int_unpadded z : 0 <= z <= 59 -> py_str_int z = unpadded z.
Proof. intros Hz. below_60 z. Qed.

Lemma py_str_field_text i : 0 <= int_val i <= 59 -> py_str i = field_text i.
Proof.
  destruct i as [z|[|]]; cbn [int_val py_str field_text]; intros Hz;
    [now apply py_str_int_unpadded | reflexivity | reflexivity].
Qed.

Lemma format_02d_int z :
  0 <= z <= 59 -> format_02d (PInt z) = two_digits z.
Proof. intros Hz. below_60 z. Qed.

Lemma format_02d_two_digits i :
  0 <= int_val i <= 59 -> format_02d i = two_digits (int_val i).
Proof.
  destruct i as [z|[|]]; cbn [int_val]; intros Hz;
    [now apply format_02d_int | reflexivity | reflexivity].
Qed.

Lemma read_literal_int z c rest :
  0 <= z <= 59 -> closes_literal c = true ->
  read_literal (py_str_int z ++ String c rest)
  = Some (py_int z, String c rest).
Proof.
  intros Hz Hc.
  assert (c = ","%char \/ c = ")"%char) as [-> | ->].
  { unfold closes_literal in Hc. apply orb_true_iff in Hc.
    destruct Hc as [E|E]; apply Ascii.eqb_eq in E; auto. }
  - below_60 z.
  - below_60 z.
Qed.

Lemma read_literal_field i c rest :
  0 <= int_val i <= 59 -> closes_literal c = true ->
  read_literal (py_str i ++ String c rest) = Some (VInt i, String c rest).
Proof.
  destruct i as [z|[|]]; cbn [int_val py_str]; intros Hz Hc.
  - now apply read_literal_int.
  - reflexivity.
  - reflexivity.
Qed.

Lemma strip_prefix_app p s : strip_prefix p (p ++ s) = Some s.
Proof.
  induction p as [|c p IH]; cbn [append strip_prefix]; [reflexivity|].
  rewrite Ascii.eqb_refl. exact IH.
Qed.

Lemma eval_repr_text h m s :
  0 <= int_val h <= 23 -> 0 <= int_val m <= 59 -> 0 <= int_val s <= 59 ->
  eval_constructor_call
    ("Clock(" ++ py_str h ++ ", " ++ py_str m ++ ", " ++ py_str s ++ ")")
  = Some (Return (clock_of h m s)).
Proof.
  intros Hh Hm Hs. unfold eval_constructor_call.
  rewrite strip_prefix_app.
  change (", " ++ ?x) with (String "," (" " ++ x)).
  rewrite read_literal_field by (reflexivity || lia).
  change (String "," (" " ++ ?x)) with (", " ++ x).
  rewrite strip_prefix_app.
  change (", " ++ ?x) with (String "," (" " ++ x)).
  rewrite read_literal_field by (reflexivity || lia).
  change (String "," (" " ++ ?x)) with (", " ++ x).
  rewrite strip_prefix_app.
  change (py_str s ++ ")") with (py_str s ++ String ")" "").
  rewrite read_literal_field by (reflexivity || lia).
  cbn [String.eqb Ascii.eqb Bool.eqb].
  rewrite Clock_of_args_ok by assumption. reflexivity.
Qed.

(** *** Preservation lemmas shared by the theorems below *)

Lemma set_clock_state h m s self :
  state_after (set_clock h m s) self = self
  \/ (valid (state_after (set_clock h m s) self)
      /\ result_of (set_clock h m s) self = Return tt).
Proof.
  unfold state_after, result_of.
  destruct (set_clock_cases h m s self)
    as [[e [E _]] | [ih [im [is_ [_ [_ [_ [V E]]]]]]]]; rewrite E; cbn; auto.
Qed.

Lemma set_clock_returns_valid h m s self :
  result_of (set_clock h m s) self = Return tt ->
  valid (state_after (set_clock h m s) self).
Proof.
  unfold state_after, result_of.
  destruct (set_clock_cases h m s self)
    as [[e [E _]] | [ih [im [is_ [_ [_ [_ [V E]]]]]]]]; rewrite E; cbn;
    [discriminate | auto].
Qed.

Lemma call_set_clock_preserves h m s self :
  valid self -> valid (state_after (call_set_clock h m s) self).
Proof.
  intros V. unfold call_set_clock.
  destruct h as [h|], m as [m|], s as [s|]; try exact V.
  destruct (set_clock_state h m s self) as [E | [V' _]];
    [rewrite E; exact V | exact V'].
Qed.

Lemma call_set_clock_returns_valid h m s self :
  result_of (call_set_clock h m s) self = Return tt ->
  valid (state_after (call_set_clock h m s) self).
Proof.
  unfold call_set_clock.
  destruct h as [h|], m as [m|], s as [s|]; try discriminate.
  apply set_clock_returns_valid.
Qed.

Lemma add_seconds_valid d self :
  valid self ->
  state_after (add_seconds d) self = self
  \/ (valid (state_after (add_seconds d) self)
      /\ result_of (add_seconds d) self = Return tt).
Proof.
  intros V. destruct (valid_inv _ V) as [h [m [s [-> _]]]].
  destruct d as [d| | |];
    try (left; unfold state_after; rewrite add_seconds_not_int; reflexivity).
  right. unfold state_after, result_of. rewrite add_seconds_run. cbn.
  split; [apply time_of_day_valid | reflexivity].
Qed.

Lemma add_seconds_preserves d self :
  valid self -> valid (state_after (add_seconds d) self).
Proof.
  intros V. destruct (add_seconds_valid d self V) as [E | [V' _]];
    [rewrite E; exact V | exact V'].
Qed.

Lemma from_seconds_Return t c : from_seconds t = Return c -> valid c.
Proof.
  destruct t as [t| | |]; try (rewrite from_seconds_not_int; [discriminate | reflexivity]).
  rewrite from_seconds_run. intros [= <-]. apply time_of_day_valid.
Qed.

Lemma floor_mod_add_l a b : floor_mod (floor_mod a 86400 + b) 86400 = floor_mod (a + b) 86400.
Proof. rewrite !floor_mod_eq by lia. apply Z.add_mod_idemp_l. lia. Qed.

Lemma time_of_day_floor_mod t : time_of_day (floor_mod t 86400) = time_of_day t.
Proof.
  unfold time_of_day.
  replace (floor_mod (floor_mod t 86400) 86400) with (floor_mod t 86400);
    [reflexivity|].
  rewrite !floor_mod_eq by lia. symmetry. apply Z.mod_mod. lia.
Qed.

Lemma seconds_of_time_fields t :
  exists h m s, time_of_day t = clock_of h m s
                /\ seconds_of h m s = floor_mod t 86400.
Proof.
  unfold time_of_day, clock_of_Z. eexists _, _, _. split; [reflexivity|].
  unfold seconds_of; cbn [int_val]. Z.div_mod_to_equations. lia.
Qed.

Lemma time_of_day_add t d :
  forall h m s, time_of_day t = clock_of h m s ->
  time_of_day (seconds_of h m s + d) = time_of_day (t + d).
Proof.
  intros h m s E.
  destruct (seconds_of_time_fields t) as [h' [m' [s' [E' S]]]].
  rewrite E in E'. injection E' as -> -> ->.
  rewrite S. unfold time_of_day. rewrite floor_mod_add_l. reflexivity.
Qed.

Lemma time_of_day_seconds_of h m s :
  0 <= int_val h <= 23 -> 0 <= int_val m <= 59 -> 0 <= int_val s <= 59 ->
  time_of_day (seconds_of h m s)
  = clock_of_Z (int_val h) (int_val m) (int_val s).
Proof.
  intros Hh Hm Hs. unfold time_of_day.
  assert (floor_mod (seconds_of h m s) 86400 = seconds_of h m s) as ->
    by (rewrite floor_mod_eq by lia; apply Z.mod_small;
        unfold seconds_of; lia).
  f_equal; unfold seconds_of; Z.div_mod_to_equations; lia.
Qed.

(** ** The claims *)

(** C1.  Every instance that the constructor, [from_seconds], [set_clock]
    and [add_seconds] can produce or leave behind denotes a time of day:
    hours within 0..23, minutes and seconds within 0..59.  The constructor
    and the factory give a valid instance whenever they return, and from a
    valid instance [set_clock] and [add_seconds] leave a valid instance
    whenever they return, for every input. *)
Theorem invariant_reestablished :
  (forall c, reachable c -> valid c)
  /\ (forall h m s c, Clock_new h m s = Return c -> valid c)
  /\ (forall t c, from_seconds t = Return c -> valid c)
  /\ (forall h m s self,
        valid self -> result_of (call_set_clock h m s) self = Return tt ->
        valid (state_after (call_set_clock h m s) self))
  /\ (forall d self,
        valid self -> result_of (add_seconds d) self = Return tt ->
        valid (state_after (add_seconds d) self)).
Proof.
  repeat split.
  - induction 1 as [h m s c E | t c E | h m s c _ IH | d c _ IH].
    + eapply Clock_new_Return; eassumption.
    + eapply from_seconds_Return; eassumption.
    + now apply call_set_clock_preserves.
    + now apply add_seconds_preserves.
  - apply Clock_new_Return.
  - apply from_seconds_Return.
  - intros h m s self _. apply call_set_clock_returns_valid.
  - intros d self V _. now apply add_seconds_preserves.
Qed.

Lemma invariant_reestablished_witness :
  valid (state_after (add_seconds (py_int (-1))) (clock_of_Z 0 0 0))
  /\ valid (state_after
              (call_set_clock (Some (py_int 7)) (Some (py_int 8))
                              (Some (py_int 9)))
              (clock_of_Z 0 0 0)).
Proof.
  split.
  - apply (proj2 (proj2 (proj2 (proj2 invariant_reestablished)))).
    + reflexivity.
    + reflexivity.
  - apply (proj1 (proj2 (proj2 (proj2 invariant_reestablished)))).
    + reflexivity.
    + reflexivity.
Defined.

(** C2.  [add_seconds] is additive modulo a day: for all instances of [int]
    [x] and [d], of any sign and size, [from_seconds(x)] followed by
    [add_seconds(d)] gives a clock that [==] finds equal to
    [from_seconds(x + d)]; both have the same attributes. *)
Theorem add_seconds_additive (x d : pyint) :
  exists c1 c2,
    from_seconds (VInt x) = Return c1
    /\ from_seconds (py_int (int_val x + int_val d)) = Return c2
    /\ result_of (add_seconds (VInt d)) c1 = Return tt
    /\ state_after (add_seconds (VInt d)) c1 = c2
    /\ result_of (__eq__ (OClock c2)) (state_after (add_seconds (VInt d)) c1)
       = Return (Bool true).
Proof.
  exists (time_of_day (int_val x)), (time_of_day (int_val x + int_val d)).
  split; [apply from_seconds_run|].
  split; [apply (from_seconds_run (PInt _))|].
  destruct (seconds_of_time_fields (int_val x)) as [h [m [s [E _]]]].
  unfold result_of, state_after. rewrite E, add_seconds_run. cbn [fst snd].
  rewrite (time_of_day_add (int_val x) (int_val d) h m s E).
  repeat split.
  unfold time_of_day, clock_of_Z. rewrite eq_run.
  unfold int_eq. rewrite !Z.eqb_refl. reflexivity.
Qed.

(** C3.  The normalisation of [add_seconds] (add a day while the total is
    negative, then take the remainder modulo 86400) is the floored modulo:
    for every valid clock and every integer delta [d], [add_seconds(d)]
    returns and [to_seconds()] is then the old [to_seconds()] plus [d],
    floor-mod 86400.  In particular [Clock(0,0,0).add_seconds(-1)] shows
    23:59:59. *)
Theorem add_seconds_floor_mod :
  (forall t, while_negative t mod (24 * 3600) = floor_mod t 86400)
  /\ (forall t, floor_mod t 86400 = t mod 86400)
  /\ (forall c (d : pyint),
        valid c ->
        exists old,
          result_of to_seconds c = Return old
          /\ result_of (add_seconds (VInt d)) c = Return tt
          /\ result_of to_seconds (state_after (add_seconds (VInt d)) c)
             = Return (floor_mod (old + int_val d) 86400))
  /\ state_after (add_seconds (py_int (-1))) (clock_of_Z 0 0 0)
     = clock_of_Z 23 59 59
  /\ result_of __str__
       (state_after (add_seconds (py_int (-1))) (clock_of_Z 0 0 0))
     = Return "23:59:59".
Proof.
  split; [exact normalize_floor_mod|].
  split; [intros t; apply floor_mod_eq; lia|].
  split; [|split; reflexivity].
  intros c d V. destruct (valid_inv _ V) as [h [m [s [-> _]]]].
  exists (seconds_of h m s). unfold result_of, state_after.
  rewrite to_seconds_run, add_seconds_run. cbn [fst snd].
  repeat split. apply seconds_of_time_of_day.
Qed.

Lemma add_seconds_floor_mod_witness :
  valid (clock_of_Z 0 0 5)
  /\ exists old,
       result_of to_seconds (clock_of_Z 0 0 5) = Return old
       /\ result_of (add_seconds (VInt (PInt (-200000)))) (clock_of_Z 0 0 5)
          = Return tt
       /\ result_of to_seconds
            (state_after (add_seconds (VInt (PInt (-200000))))
                         (clock_of_Z 0 0 5))
          = Return (floor_mod (old + int_val (PInt (-200000))) 86400).
Proof.
  split; [reflexivity|].
  apply (proj1 (proj2 (proj2 add_seconds_floor_mod))). reflexivity.
Defined.

(** C4.  The failure contract of [set_clock] and of construction.  When
    some argument is not an instance of [int] the call raises the type
    error, whatever the other arguments are.  When the three are instances
    of [int] and some component is out of bounds the call raises the range
    error of the first component that is, in the order hours, minutes,
    seconds.  Whenever [set_clock] raises, the three attributes are what
    they were before the call; the constructor raises the same exception
    and yields no instance. *)
Theorem set_clock_failure_contract :
  (forall h m s self,
     forallb isinstance_int [h; m; s] = false ->
     set_clock h m s self = (self, Raise type_error_components))
  /\ (forall h m s self,
        ~ 0 <= int_val h <= 23 ->
        set_clock (VInt h) (VInt m) (VInt s) self
        = (self, Raise (ValueError "Hours must be between 0 and 23")))
  /\ (forall h m s self,
        0 <= int_val h <= 23 -> ~ 0 <= int_val m <= 59 ->
        set_clock (VInt h) (VInt m) (VInt s) self
        = (self, Raise (ValueError "Minutes must be between 0 and 59")))
  /\ (forall h m s self,
        0 <= int_val h <= 23 -> 0 <= int_val m <= 59 ->
        ~ 0 <= int_val s <= 59 ->
        set_clock (VInt h) (VInt m) (VInt s) self
        = (self, Raise (ValueError "Seconds must be between 0 and 59")))
  /\ (forall h m s self e,
        result_of (set_clock h m s) self = Raise e ->
        state_after (set_clock h m s) self = self
        /\ (is_TypeError (@Raise unit e) || is_ValueError (@Raise unit e)) = true
        /\ Clock_of_args h m s = Raise e).
Proof.
  split; [exact set_clock_not_int|].
  split; [|split; [|split]].
  - intros h m s self H. rewrite set_clock_ints.
    assert (in_range 0 h 24 = false) as ->; [|reflexivity].
    apply not_true_is_false. rewrite in_range_spec. lia.
  - intros h m s self Hh H. rewrite set_clock_ints.
    assert (in_range 0 h 24 = true) as -> by (apply in_range_spec; lia).
    assert (in_range 0 m 60 = false) as ->; [|reflexivity].
    apply not_true_is_false. rewrite in_range_spec. lia.
  - intros h m s self Hh Hm H. rewrite set_clock_ints.
    assert (in_range 0 h 24 = true) as -> by (apply in_range_spec; lia).
    assert (in_range 0 m 60 = true) as -> by (apply in_range_spec; lia).
    assert (in_range 0 s 60 = false) as ->; [|reflexivity].
    apply not_true_is_false. rewrite in_range_spec. lia.
  - intros h m s self e. unfold result_of, state_after.
    rewrite Clock_of_args_eq.
    destruct (set_clock_cases h m s self)
      as [[e' [E T]] | [ih [im [is_ [-> [-> [-> [V E]]]]]]]]; rewrite E;
      cbn [fst snd]; [|discriminate].
    intros [= ->]. split; [reflexivity|]. split; [exact T|].
    destruct (set_clock_cases h m s fresh)
      as [[e'' [E' _]] | [ih [im [is_ [-> [-> [-> [V' E']]]]]]]]; rewrite E'.
    + f_equal.
      destruct (forallb isinstance_int [h; m; s]) eqn:Ty.
      * destruct h as [ih| | |], m as [im| | |], s as [is_| | |];
          try discriminate Ty.
        rewrite set_clock_ints in E, E'.
        destruct (in_range 0 ih 24), (in_range 0 im 60),
          (in_range 0 is_ 60); cbn [negb] in E, E'; congruence.
      * rewrite set_clock_not_int in E, E' by assumption. congruence.
    + apply valid_clock_of in V'. rewrite set_clock_ok in E by lia.
      discriminate.
Qed.

Lemma set_clock_failure_contract_witness :
  set_clock (py_int 99) (VStr "noon") (py_int 0) (clock_of_Z 1 2 3)
  = (clock_of_Z 1 2 3, Raise type_error_components)
  /\ set_clock (py_int 24) (py_int 60) (py_int 0) (clock_of_Z 1 2 3)
     = (clock_of_Z 1 2 3, Raise (ValueError "Hours must be between 0 and 23"))
  /\ set_clock (py_int 23) (py_int 60) (py_int 60) (clock_of_Z 1 2 3)
     = (clock_of_Z 1 2 3,
        Raise (ValueError "Minutes must be between 0 and 59"))
  /\ set_clock (py_int 23) (py_int 59) (py_int (-1)) (clock_of_Z 1 2 3)
     = (clock_of_Z 1 2 3,
        Raise (ValueError "Seconds must be between 0 and 59"))
  /\ state_after (set_clock (py_int 23) (py_int 59) (py_int (-1)))
                 (clock_of_Z 1 2 3)
     = clock_of_Z 1 2 3.
Proof.
  pose proof set_clock_failure_contract as [T [Rh [Rm [Rs F]]]].
  split; [apply T; reflexivity|].
  split; [apply Rh; cbn; lia|].
  split; [apply Rm; cbn; lia|].
  split; [apply Rs; cbn; lia|].
  apply (F _ _ _ _ (ValueError "Seconds must be between 0 and 59")).
  reflexivity.
Defined.

(** C5.  Round trips.  For [h] within 0..23 and [m], [s] within 0..59,
    [Clock(h, m, s)] returns an instance whose attributes read back as
    exactly [h], [m] and [s]; and for every valid clock [c],
    [from_seconds(c.to_seconds())] returns a clock equal to [c] under [==],
    in both directions, with the same numeric value in every field. *)
Theorem round_trips :
  (forall h m s,
     0 <= int_val h <= 23 -> 0 <= int_val m <= 59 -> 0 <= int_val s <= 59 ->
     exists c,
       Clock_of_args (VInt h) (VInt m) (VInt s) = Return c
       /\ hours c = Some h /\ minutes c = Some m /\ seconds c = Some s)
  /\ (forall c,
        valid c ->
        exists t c',
          result_of to_seconds c = Return t
          /\ 0 <= t <= 86399
          /\ from_seconds (py_int t) = Return c'
          /\ result_of (__eq__ (OClock c')) c = Return (Bool true)
          /\ result_of (__eq__ (OClock c)) c' = Return (Bool true)
          /\ option_map int_val (hours c') = option_map int_val (hours c)
          /\ option_map int_val (minutes c') = option_map int_val (minutes c)
          /\ option_map int_val (seconds c') = option_map int_val (seconds c)).
Proof.
  split.
  - intros h m s Hh Hm Hs. exists (clock_of h m s).
    rewrite Clock_of_args_ok by assumption. repeat split.
  - intros c V. destruct (valid_inv _ V) as [h [m [s [-> [Hh [Hm Hs]]]]]].
    exists (seconds_of h m s), (time_of_day (seconds_of h m s)).
    unfold result_of. rewrite to_seconds_run. cbn [snd].
    split; [reflexivity|].
    split; [unfold seconds_of; lia|].
    split; [apply (from_seconds_run (PInt _))|].
    rewrite time_of_day_seconds_of by assumption.
    unfold clock_of_Z. rewrite !eq_run. cbn [snd].
    unfold int_eq, clock_of; cbn [int_val hours minutes seconds option_map].
    rewrite !Z.eqb_refl. repeat split.
Qed.

Lemma round_trips_witness :
  (exists c,
     Clock_of_args (py_int 23) (py_int 59) (py_int 58) = Return c
     /\ hours c = Some (PInt 23) /\ minutes c = Some (PInt 59)
     /\ seconds c = Some (PInt 58))
  /\ valid (clock_of (PBool true) (PInt 59) (PInt 58))
  /\ exists t c', 
       result_of to_seconds (clock_of (PBool true) (PInt 59) (PInt 58))
       = Return t
       /\ 0 <= t <= 86399
       /\ from_seconds (py_int t) = Return c'
       /\ result_of (__eq__ (OClock c'))
            (clock_of (PBool true) (PInt 59) (PInt 58)) = Return (Bool true)
       /\ result_of (__eq__ (OClock (clock_of (PBool true) (PInt 59) (PInt 58))))
            c' = Return (Bool true)
       /\ option_map int_val (hours c') = Some 1
       /\ option_map int_val (minutes c') = Some 59
       /\ option_map int_val (seconds c') = Some 58.
Proof.
  split; [|split; [reflexivity|]].
  - apply (proj1 round_trips (PInt 23) (PInt 59) (PInt 58)); cbn; lia.
  - apply (proj2 round_trips (clock_of (PBool true) (PInt 59) (PInt 58))).
    reflexivity.
Defined.

Lemma py_str_int_head z c rest :
  py_str_int z = String c rest -> c = "-"%char \/ is_digit c = true.
Proof.
  unfold py_str_int.
  destruct (Z.to_int z) as [u|u]; cbn [NilZero.string_of_int].
  - destruct u; cbn; intros [= <- _]; right; reflexivity.
  - intros [= <- _]. left. reflexivity.
Qed.

(** C6, as worded, fails on a clock built from booleans: the constructor
    accepts [Clock(True, False, False)], the instance is valid, and its
    debug representation spells the fields as words; no choice of three
    integers gives that text. *)
Lemma repr_decimal_fields_counterexample :
  Clock_of_args (VInt (PBool true)) (VInt (PBool false)) (VInt (PBool false))
  = Return (clock_of (PBool true) (PBool false) (PBool false))
  /\ valid (clock_of (PBool true) (PBool false) (PBool false))
  /\ result_of __repr__ (clock_of (PBool true) (PBool false) (PBool false))
     = Return "Clock(True, False, False)"
  /\ "Clock(True, False, False)" <> "Clock(1, 0, 0)"
  /\ ~ (exists h m s : Z,
          result_of __repr__ (clock_of (PBool true) (PBool false) (PBool false))
          = Return ("Clock(" ++ py_str_int h ++ ", " ++ py_str_int m ++ ", "
                    ++ py_str_int s ++ ")")).
Proof.
  split; [reflexivity|]. split; [reflexivity|]. split; [reflexivity|].
  split; [discriminate|].
  intros [h [m [s E]]].
  change (result_of __repr__ (clock_of (PBool true) (PBool false) (PBool false)))
    with (@Return string "Clock(True, False, False)") in E.
  injection E as E. cbn [append] in E.
  destruct (py_str_int h) as [|c rest] eqn:Sh.
  - cbn [append] in E. discriminate E.
  - cbn [append] in E. injection E as Ec _.
    destruct (py_str_int_head _ _ _ Sh) as [D|D]; subst c; discriminate D.
Qed.

(** C6, amended.  For every valid clock the display string is the
    zero-padded [HH:MM:SS] form, two decimal digits per component separated
    by colons.  The debug representation is [Clock(h, m, s)] with each field
    as [str] prints it: decimal digits without padding for a field that is
    an [int], the word [True] or [False] for a field that is a [bool].
    Evaluating that text as a constructor call returns a clock equal to the
    original. *)
Theorem string_representations c :
  valid c ->
  exists h m s text,
    c = clock_of h m s
    /\ result_of __str__ c
       = Return (two_digits (int_val h) ++ ":" ++ two_digits (int_val m)
                 ++ ":" ++ two_digits (int_val s))
    /\ result_of __repr__ c = Return text
    /\ text = "Clock(" ++ field_text h ++ ", " ++ field_text m ++ ", "
              ++ field_text s ++ ")"
    /\ eval_constructor_call text = Some (Return c)
    /\ result_of (__eq__ (OClock c)) c = Return (Bool true).
Proof.
  intros V. destruct (valid_inv _ V) as [h [m [s [-> [Hh [Hm Hs]]]]]].
  exists h, m, s,
    ("Clock(" ++ py_str h ++ ", " ++ py_str m ++ ", " ++ py_str s ++ ")").
  split; [reflexivity|].
  split.
  { unfold result_of, __str__, bind, get_hours, get_minutes, get_seconds,
      get_attr, ret, clock_of. cbn [hours minutes seconds snd].
    rewrite !format_02d_two_digits by lia. reflexivity. }
  split; [reflexivity|].
  split; [rewrite !py_str_field_text by lia; reflexivity|].
  split; [now apply eval_repr_text|].
  unfold result_of. rewrite eq_run. unfold int_eq. rewrite !Z.eqb_refl.
  reflexivity.
Qed.

Lemma string_representations_witness :
  valid (clock_of (PInt 8) (PBool true) (PInt 45))
  /\ exists h m s text,
       clock_of (PInt 8) (PBool true) (PInt 45) = clock_of h m s
       /\ result_of __str__ (clock_of (PInt 8) (PBool true) (PInt 45))
          = Return (two_digits (int_val h) ++ ":" ++ two_digits (int_val m)
                    ++ ":" ++ two_digits (int_val s))
       /\ result_of __repr__ (clock_of (PInt 8) (PBool true) (PInt 45))
          = Return text
       /\ text = "Clock(" ++ field_text h ++ ", " ++ field_text m ++ ", "
                 ++ field_text s ++ ")"
       /\ eval_constructor_call text
          = Some (Return (clock_of (PInt 8) (PBool true) (PInt 45)))
       /\ result_of (__eq__ (OClock (clock_of (PInt 8) (PBool true) (PInt 45))))
            (clock_of (PInt 8) (PBool true) (PInt 45))
          = Return (Bool true).
Proof.
  split; [reflexivity|].
  apply (string_representations (clock_of (PInt 8) (PBool true) (PInt 45))).
  reflexivity.
Defined.

Lemma hash_run hash_int hash_tuple h m s :
  __hash__ hash_int hash_tuple (clock_of h m s)
  = (clock_of h m s,
     Return (hash_tuple [hash_int (int_val h); hash_int (int_val m);
                         hash_int (int_val s)])).
Proof. reflexivity. Qed.

(** C7.  Equality and hashing.  [==] on two clocks answers true exactly when
    hours, minutes and seconds have the same values component by component
    (for fields that are [int] objects: exactly when the two instances hold
    the same three attributes).  Against a value of another type [__eq__]
    returns [NotImplemented] and raises nothing.  Two clocks that [==] finds
    equal have the same hash, and a clock built by the constructor and the
    clock [from_seconds] builds for the same time are equal and hash
    alike. *)
Theorem equality_and_hash (hash_int : Z -> Z) (hash_tuple : list Z -> Z) :
  (forall h m s h' m' s',
     exists b,
       __eq__ (OClock (clock_of h' m' s')) (clock_of h m s)
       = (clock_of h m s, Return (Bool b))
       /\ (b = true <->
           int_val h = int_val h' /\ int_val m = int_val m'
           /\ int_val s = int_val s'))
  /\ (forall h m s h' m' s' : Z,
        result_of (__eq__ (OClock (clock_of_Z h' m' s'))) (clock_of_Z h m s)
        = Return (Bool true)
        <-> clock_of_Z h m s = clock_of_Z h' m' s')
  /\ (forall c v, __eq__ (OVal v) c = (c, Return NotImplemented))
  /\ (forall c1 c2,
        valid c1 -> valid c2 ->
        result_of (__eq__ (OClock c2)) c1 = Return (Bool true) ->
        exists n,
          result_of (__hash__ hash_int hash_tuple) c1 = Return n
          /\ result_of (__hash__ hash_int hash_tuple) c2 = Return n)
  /\ (forall h m s,
        0 <= int_val h <= 23 -> 0 <= int_val m <= 59 -> 0 <= int_val s <= 59 ->
        exists c1 c2 n,
          Clock_of_args (VInt h) (VInt m) (VInt s) = Return c1
          /\ from_seconds (py_int (seconds_of h m s)) = Return c2
          /\ result_of (__eq__ (OClock c2)) c1 = Return (Bool true)
          /\ result_of (__hash__ hash_int hash_tuple) c1 = Return n
          /\ result_of (__hash__ hash_int hash_tuple) c2 = Return n).
Proof.
  assert (EQ : forall h m s h' m' s',
             (int_eq h h' && int_eq m m' && int_eq s s') = true <->
             int_val h = int_val h' /\ int_val m = int_val m'
             /\ int_val s = int_val s').
  { intros. rewrite !andb_true_iff, !int_eq_spec. tauto. }
  split; [|split; [|split; [|split]]].
  - intros. eexists. split; [apply eq_run | apply EQ].
  - intros. unfold result_of, clock_of_Z. rewrite eq_run. cbn [snd]. split.
    + intros [= E]. apply EQ in E. cbn [int_val] in E.
      destruct E as [-> [-> ->]]. reflexivity.
    + intros [= -> -> ->]. unfold int_eq. rewrite !Z.eqb_refl. reflexivity.
  - reflexivity.
  - intros c1 c2 V1 V2.
    destruct (valid_inv _ V1) as [h [m [s [-> _]]]].
    destruct (valid_inv _ V2) as [h' [m' [s' [-> _]]]].
    unfold result_of. rewrite eq_run, !hash_run. cbn [snd].
    intros [= E]. apply EQ in E. destruct E as [-> [-> ->]].
    eexists. split; reflexivity.
  - intros h m s Hh Hm Hs.
    exists (clock_of h m s), (clock_of_Z (int_val h) (int_val m) (int_val s)).
    eexists. split; [now apply Clock_of_args_ok|].
    split.
    { unfold py_int. rewrite from_seconds_run. cbn [int_val].
      now rewrite time_of_day_seconds_of. }
    unfold result_of, clock_of_Z. rewrite eq_run, !hash_run. cbn [snd int_val].
    unfold int_eq; cbn [int_val]. rewrite !Z.eqb_refl.
    repeat split.
Qed.

Lemma equality_and_hash_witness :
  valid (clock_of (PBool true) (PInt 30) (PInt 0))
  /\ valid (clock_of_Z 1 30 0)
  /\ result_of (__eq__ (OClock (clock_of_Z 1 30 0)))
       (clock_of (PBool true) (PInt 30) (PInt 0)) = Return (Bool true)
  /\ exists n,
       result_of (__hash__ CPython.hash_int CPython.hash_tuple)
         (clock_of (PBool true) (PInt 30) (PInt 0)) = Return n
       /\ result_of (__hash__ CPython.hash_int CPython.hash_tuple)
            (clock_of_Z 1 30 0) = Return n.
Proof.
  split; [reflexivity|]. split; [reflexivity|]. split; [reflexivity|].
  apply (proj1 (proj2 (proj2 (proj2
           (equality_and_hash CPython.hash_int CPython.hash_tuple))))).
  - reflexivity.
  - reflexivity.
  - reflexivity.
Defined.

(** C8.  The triple that normalisation and decomposition produce always
    lies within the bounds, for every integer total.  Hence on a valid clock
    [add_seconds] never raises the range error, and returns for every
    instance of [int]; [from_seconds] never raises the range error, and
    returns for every instance of [int]. *)
Theorem range_error_unreachable :
  (forall t,
     let '(h, m, s) := decompose (while_negative t mod (24 * 3600)) in
     0 <= h <= 23 /\ 0 <= m <= 59 /\ 0 <= s <= 59)
  /\ (forall c d, valid c -> is_ValueError (result_of (add_seconds d) c) = false)
  /\ (forall c (d : pyint),
        valid c -> result_of (add_seconds (VInt d)) c = Return tt)
  /\ (forall t, is_ValueError (from_seconds t) = false)
  /\ (forall t : pyint, is_Return (from_seconds (VInt t)) = true).
Proof.
  split; [|split; [|split; [|split]]].
  - intros t. rewrite normalize_floor_mod.
    pose proof (decompose_range _ (floor_mod_range t)) as D.
    destruct (decompose (floor_mod t 86400)) as [[h m] s]. tauto.
  - intros c d V. destruct (valid_inv _ V) as [h [m [s [-> _]]]].
    unfold result_of. destruct d as [d| | |];
      [rewrite add_seconds_run | rewrite add_seconds_not_int by reflexivity ..];
      reflexivity.
  - intros c d V. destruct (valid_inv _ V) as [h [m [s [-> _]]]].
    unfold result_of. rewrite add_seconds_run. reflexivity.
  - intros [t| | |];
      [rewrite from_seconds_run | rewrite from_seconds_not_int by reflexivity ..];
      reflexivity.
  - intros t. rewrite from_seconds_run. reflexivity.
Qed.

Lemma range_error_unreachable_witness :
  valid (clock_of_Z 23 59 59)
  /\ is_ValueError
       (result_of (add_seconds (py_int 1000000007)) (clock_of_Z 23 59 59))
     = false
  /\ result_of (add_seconds (VInt (PInt (-1000000007)))) (clock_of_Z 23 59 59)
     = Return tt.
Proof.
  split; [reflexivity|]. split.
  - apply (proj1 (proj2 range_error_unreachable)). reflexivity.
  - apply (proj1 (proj2 (proj2 range_error_unreachable))). reflexivity.
Defined.

(** C9, as worded, fails: [set_clock] declares no default values, so a call
    that leaves arguments out raises and changes nothing, where supplying
    zeros would have set the time to 00:00:00. *)
Lemma set_clock_defaults_counterexample :
  is_TypeError (result_of (call_set_clock None None None) (clock_of_Z 12 30 45))
  = true
  /\ state_after (call_set_clock None None None) (clock_of_Z 12 30 45)
     = clock_of_Z 12 30 45
  /\ call_set_clock (Some (py_int 0)) (Some (py_int 0)) (Some (py_int 0))
       (clock_of_Z 12 30 45)
     = (clock_of_Z 0 0 0, Return tt)
  /\ call_set_clock None None None (clock_of_Z 12 30 45)
     <> call_set_clock (Some (py_int 0)) (Some (py_int 0)) (Some (py_int 0))
          (clock_of_Z 12 30 45).
Proof.
  split; [reflexivity|]. split; [reflexivity|]. split; [reflexivity|].
  discriminate.
Qed.

(** C9, amended.  The constructor's arguments hours, minutes and seconds
    each default to 0: constructing with any of them left out behaves as if
    0 had been supplied for those, so [Clock()] returns 00:00:00.
    [set_clock] itself takes its three arguments without defaults: with the
    three supplied the call runs the method's body, and with any left out
    it raises a type error and leaves the instance as it was. *)
Theorem constructor_defaults :
  (forall h m s : arg,
     Clock_new h m s
     = Clock_of_args (with_default (py_int 0) h) (with_default (py_int 0) m)
                     (with_default (py_int 0) s))
  /\ Clock_new None None None = Return (clock_of_Z 0 0 0)
  /\ result_of __str__ (clock_of_Z 0 0 0) = Return "00:00:00"
  /\ (forall h m s self,
        call_set_clock (Some h) (Some m) (Some s) self = set_clock h m s self)
  /\ (forall h m s self,
        h = None \/ m = None \/ s = None ->
        is_TypeError (result_of (call_set_clock h m s) self) = true
        /\ state_after (call_set_clock h m s) self = self).
Proof.
  split; [reflexivity|]. split; [reflexivity|]. split; [reflexivity|].
  split; [reflexivity|].
  intros h m s self H.
  destruct h, m, s; try (split; reflexivity);
    exfalso; destruct H as [H|[H|H]]; discriminate H.
Qed.

Lemma constructor_defaults_witness :
  is_TypeError
    (result_of (call_set_clock (Some (py_int 5)) None (Some (py_int 7)))
               (clock_of_Z 1 2 3)) = true
  /\ state_after (call_set_clock (Some (py_int 5)) None (Some (py_int 7)))
                 (clock_of_Z 1 2 3)
     = clock_of_Z 1 2 3.
Proof.
  apply (proj2 (proj2 (proj2 (proj2 constructor_defaults)))).
  right. left. reflexivity.
Defined.

(** C10.  Booleans pass the type test.  [Clock(True, False, False)] raises
    nothing and returns an instance that displays as 01:00:00; every
    construction and every [set_clock] with three booleans returns, storing
    the booleans; [add_seconds] on a valid clock and [from_seconds] return
    for a boolean argument, counting [True] as 1 and [False] as 0. *)
Theorem booleans_accepted :
  Clock_of_args (VInt (PBool true)) (VInt (PBool false)) (VInt (PBool false))
  = Return (clock_of (PBool true) (PBool false) (PBool false))
  /\ result_of __str__ (clock_of (PBool true) (PBool false) (PBool false))
     = Return "01:00:00"
  /\ (forall a b c : bool,
        isinstance_int (VInt (PBool a)) = true
        /\ Clock_of_args (VInt (PBool a)) (VInt (PBool b)) (VInt (PBool c))
           = Return (clock_of (PBool a) (PBool b) (PBool c)))
  /\ (forall (a b c : bool) self,
        set_clock (VInt (PBool a)) (VInt (PBool b)) (VInt (PBool c)) self
        = (clock_of (PBool a) (PBool b) (PBool c), Return tt))
  /\ (forall (b : bool) h m s,
        add_seconds (VInt (PBool b)) (clock_of h m s)
        = (time_of_day (seconds_of h m s + Z.b2z b), Return tt))
  /\ (forall b : bool,
        from_seconds (VInt (PBool b)) = Return (clock_of_Z 0 0 (Z.b2z b))).
Proof.
  split; [reflexivity|]. split; [reflexivity|].
  split; [intros [|] [|] [|]; split; reflexivity|].
  split; [intros [|] [|] [|] self; reflexivity|].
  split; [intros b h m s; apply add_seconds_run|].
  intros [|]; reflexivity.
Qed.

(** ** Further properties of the methods *)

(** *** Helper facts *)

Lemma time_of_day_period t k : time_of_day (t + 86400 * k) = time_of_day t.
Proof.
  unfold time_of_day.
  assert (floor_mod (t + 86400 * k) 86400 = floor_mod t 86400) as ->;
    [|reflexivity].
  rewrite !floor_mod_eq by lia.
  rewrite (Z.mul_comm 86400 k). apply Z_mod_plus_full.
Qed.

Lemma seconds_of_range h m s :
  0 <= int_val h <= 23 -> 0 <= int_val m <= 59 -> 0 <= int_val s <= 59 ->
  0 <= seconds_of h m s <= 86399.
Proof. unfold seconds_of. lia. Qed.

Lemma seconds_of_inj h m s h' m' s' :
  0 <= int_val h <= 23 -> 0 <= int_val m <= 59 -> 0 <= int_val s <= 59 ->
  0 <= int_val h' <= 23 -> 0 <= int_val m' <= 59 -> 0 <= int_val s' <= 59 ->
  seconds_of h m s = seconds_of h' m' s' ->
  int_val h = int_val h' /\ int_val m = int_val m' /\ int_val s = int_val s'.
Proof. unfold seconds_of. lia. Qed.

Lemma eq_true_iff h m s h' m' s' :
  result_of (__eq__ (OClock (clock_of h' m' s'))) (clock_of h m s)
  = Return (Bool true)
  <-> int_val h = int_val h' /\ int_val m = int_val m'
      /\ int_val s = int_val s'.
Proof.
  unfold result_of. rewrite eq_run. cbn [snd]. split.
  - intros [= E]. rewrite !andb_true_iff, !int_eq_spec in E. tauto.
  - intros [Eh [Em Es]]. unfold int_eq. rewrite Eh, Em, Es, !Z.eqb_refl.
    reflexivity.
Qed.

Lemma state_after_add_seconds h m s d :
  state_after (add_seconds (VInt d)) (clock_of h m s)
  = time_of_day (seconds_of h m s + int_val d).
Proof. unfold state_after. rewrite add_seconds_run. reflexivity. Qed.

(** X1.  On valid clocks [==] and [to_seconds] agree: two valid clocks are
    equal exactly when they are the same number of seconds after
    midnight. *)
Theorem eq_iff_same_to_seconds c1 c2 :
  valid c1 -> valid c2 ->
  (result_of (__eq__ (OClock c2)) c1 = Return (Bool true)
   <-> result_of to_seconds c1 = result_of to_seconds c2).
Proof.
  intros V1 V2.
  destruct (valid_inv _ V1) as [h [m [s [-> [Hh [Hm Hs]]]]]].
  destruct (valid_inv _ V2) as [h' [m' [s' [-> [Hh' [Hm' Hs']]]]]].
  rewrite eq_true_iff. unfold result_of. rewrite !to_seconds_run. cbn [snd].
  split.
  - intros [Eh [Em Es]]. unfold seconds_of. rewrite Eh, Em, Es. reflexivity.
  - intros [= E]. now apply seconds_of_inj.
Qed.

Lemma eq_iff_same_to_seconds_witness :
  valid (clock_of (PBool true) (PInt 0) (PInt 0))
  /\ valid (clock_of_Z 1 0 0)
  /\ (result_of (__eq__ (OClock (clock_of_Z 1 0 0)))
        (clock_of (PBool true) (PInt 0) (PInt 0)) = Return (Bool true)
      <-> result_of to_seconds (clock_of (PBool true) (PInt 0) (PInt 0))
          = result_of to_seconds (clock_of_Z 1 0 0)).
Proof.
  split; [reflexivity|]. split; [reflexivity|].
  apply eq_iff_same_to_seconds; reflexivity.
Defined.

(** X2.  On valid clocks [==] is an equivalence: every clock equals itself,
    the answer does not depend on which of the two is the receiver, and
    equality is transitive. *)
Theorem eq_is_equivalence :
  (forall c, valid c -> result_of (__eq__ (OClock c)) c = Return (Bool true))
  /\ (forall c1 c2,
        valid c1 -> valid c2 ->
        result_of (__eq__ (OClock c2)) c1 = result_of (__eq__ (OClock c1)) c2)
  /\ (forall c1 c2 c3,
        valid c1 -> valid c2 -> valid c3 ->
        result_of (__eq__ (OClock c2)) c1 = Return (Bool true) ->
        result_of (__eq__ (OClock c3)) c2 = Return (Bool true) ->
        result_of (__eq__ (OClock c3)) c1 = Return (Bool true)).
Proof.
  split; [|split].
  - intros c V. destruct (valid_inv _ V) as [h [m [s [-> _]]]].
    apply eq_true_iff. auto.
  - intros c1 c2 V1 V2.
    destruct (valid_inv _ V1) as [h [m [s [-> _]]]].
    destruct (valid_inv _ V2) as [h' [m' [s' [-> _]]]].
    unfold result_of. rewrite !eq_run. cbn [snd]. unfold int_eq.
    rewrite (Z.eqb_sym (int_val h)), (Z.eqb_sym (int_val m)),
      (Z.eqb_sym (int_val s)). reflexivity.
  - intros c1 c2 c3 V1 V2 V3.
    destruct (valid_inv _ V1) as [h [m [s [-> _]]]].
    destruct (valid_inv _ V2) as [h' [m' [s' [-> _]]]].
    destruct (valid_inv _ V3) as [h'' [m'' [s'' [-> _]]]].
    rewrite !eq_true_iff. intros [-> [-> ->]] [-> [-> ->]]. auto.
Qed.

Lemma eq_is_equivalence_witness :
  result_of (__eq__ (OClock (clock_of_Z 9 30 0))) (clock_of_Z 9 30 0)
  = Return (Bool true)
  /\ result_of (__eq__ (OClock (clock_of_Z 10 15 0))) (clock_of_Z 9 30 0)
     = result_of (__eq__ (OClock (clock_of_Z 9 30 0))) (clock_of_Z 10 15 0)
  /\ result_of (__eq__ (OClock (clock_of (PInt 1) (PBool false) (PInt 0))))
       (clock_of (PBool true) (PInt 0) (PInt 0)) = Return (Bool true).
Proof.
  pose proof eq_is_equivalence as [R [S T]].
  split; [apply R; reflexivity|].
  split; [apply S; reflexivity|].
  apply (T _ (clock_of_Z 1 0 0)); reflexivity.
Defined.

(** X3.  Two successive [add_seconds] amount to one with the sum: on a valid
    clock, adding [a] and then [b] leaves the same attributes as adding
    [a + b], for integers of any sign. *)
Theorem add_seconds_compose c (a b : pyint) :
  valid c ->
  state_after (add_seconds (VInt b)) (state_after (add_seconds (VInt a)) c)
  = state_after (add_seconds (py_int (int_val a + int_val b))) c.
Proof.
  intros V. destruct (valid_inv _ V) as [h [m [s [-> _]]]].
  unfold py_int. rewrite !(state_after_add_seconds h m s). cbn [int_val].
  destruct (seconds_of_time_fields (seconds_of h m s + int_val a))
    as [h' [m' [s' [E _]]]].
  rewrite E, state_after_add_seconds.
  rewrite (time_of_day_add _ (int_val b) h' m' s' E).
  f_equal. lia.
Qed.

Lemma add_seconds_compose_witness :
  valid (clock_of_Z 23 0 0)
  /\ state_after (add_seconds (VInt (PInt (-7200))))
       (state_after (add_seconds (VInt (PInt 5000))) (clock_of_Z 23 0 0))
     = state_after (add_seconds (py_int (5000 + -7200))) (clock_of_Z 23 0 0).
Proof.
  split; [reflexivity|].
  apply (add_seconds_compose (clock_of_Z 23 0 0) (PInt 5000) (PInt (-7200))).
  reflexivity.
Defined.

(** X4.  [add_seconds] can be undone: on a valid clock, adding [d] and then
    [-d] gives back a clock that [==] finds equal to the original, with the
    same value in every field. *)
Theorem add_seconds_undo h m s (d : pyint) :
  valid (clock_of h m s) ->
  state_after (add_seconds (py_int (- int_val d)))
    (state_after (add_seconds (VInt d)) (clock_of h m s))
  = clock_of_Z (int_val h) (int_val m) (int_val s)
  /\ result_of (__eq__ (OClock (clock_of h m s)))
       (state_after (add_seconds (py_int (- int_val d)))
          (state_after (add_seconds (VInt d)) (clock_of h m s)))
     = Return (Bool true).
Proof.
  intros V. apply valid_clock_of in V. destruct V as [Hh [Hm Hs]].
  assert (E : state_after (add_seconds (py_int (- int_val d)))
                (state_after (add_seconds (VInt d)) (clock_of h m s))
              = clock_of_Z (int_val h) (int_val m) (int_val s)).
  { rewrite state_after_add_seconds.
    destruct (seconds_of_time_fields (seconds_of h m s + int_val d))
      as [h' [m' [s' [E _]]]].
    rewrite E. unfold py_int. rewrite state_after_add_seconds.
    rewrite (time_of_day_add _ _ h' m' s' E). cbn [int_val].
    replace (seconds_of h m s + int_val d + - int_val d)
      with (seconds_of h m s) by lia.
    now apply time_of_day_seconds_of. }
  split; [exact E|]. rewrite E. apply eq_true_iff. cbn [int_val]. auto.
Qed.

Lemma add_seconds_undo_witness :
  valid (clock_of (PBool true) (PInt 2) (PInt 3))
  /\ state_after (add_seconds (py_int (- int_val (PInt 123456))))
       (state_after (add_seconds (VInt (PInt 123456)))
          (clock_of (PBool true) (PInt 2) (PInt 3)))
     = clock_of_Z 1 2 3.
Proof.
  split; [reflexivity|].
  apply (add_seconds_undo (PBool true) (PInt 2) (PInt 3) (PInt 123456)).
  reflexivity.
Defined.

(** X5.  [add_seconds] only sees its argument modulo a day: on a valid
    clock, adding [d] and adding [d] plus any whole number of days, forwards
    or backwards, leave the same attributes; and adding nothing leaves a
    clock equal to the original. *)
Theorem add_seconds_period h m s (d k : Z) :
  valid (clock_of h m s) ->
  state_after (add_seconds (py_int (d + 86400 * k))) (clock_of h m s)
  = state_after (add_seconds (py_int d)) (clock_of h m s)
  /\ state_after (add_seconds (py_int (86400 * k))) (clock_of h m s)
     = clock_of_Z (int_val h) (int_val m) (int_val s).
Proof.
  intros V. apply valid_clock_of in V. destruct V as [Hh [Hm Hs]].
  unfold py_int. rewrite !state_after_add_seconds. cbn [int_val]. split.
  - rewrite Z.add_assoc. apply time_of_day_period.
  - rewrite time_of_day_period. now apply time_of_day_seconds_of.
Qed.

Lemma add_seconds_period_witness :
  valid (clock_of_Z 6 7 8)
  /\ state_after (add_seconds (py_int (100 + 86400 * (-3)))) (clock_of_Z 6 7 8)
     = state_after (add_seconds (py_int 100)) (clock_of_Z 6 7 8)
  /\ state_after (add_seconds (py_int (86400 * (-3)))) (clock_of_Z 6 7 8)
     = clock_of_Z 6 7 8.
Proof.
  split; [reflexivity|].
  apply (add_seconds_period (PInt 6) (PInt 7) (PInt 8) 100 (-3)).
  reflexivity.
Defined.

(** X6.  One second forward carries as a clock does: the seconds go up by
    one; from 59 they wrap to 0 and the minutes go up; from 59 minutes the
    hours go up; and 23:59:59 is followed by 00:00:00. *)
Theorem add_one_second_carries h m s :
  valid (clock_of h m s) ->
  state_after (add_seconds (py_int 1)) (clock_of h m s)
  = if int_val s <? 59 then
      clock_of_Z (int_val h) (int_val m) (int_val s + 1)
    else if int_val m <? 59 then clock_of_Z (int_val h) (int_val m + 1) 0
    else if int_val h <? 23 then clock_of_Z (int_val h + 1) 0 0
    else clock_of_Z 0 0 0.
Proof.
  intros V. apply valid_clock_of in V. destruct V as [Hh [Hm Hs]].
  unfold py_int. rewrite state_after_add_seconds. cbn [int_val].
  unfold time_of_day. rewrite floor_mod_eq by lia. unfold seconds_of.
  set (H := int_val h) in *. set (Mi := int_val m) in *.
  set (S := int_val s) in *.
  destruct (Z.ltb_spec S 59);
    [|destruct (Z.ltb_spec Mi 59); [|destruct (Z.ltb_spec H 23)]].
  - rewrite (Z.mod_small (_ + 1) 86400) by lia.
    replace (H * 3600 + Mi * 60 + S + 1)
      with ((S + 1) + (Mi + H * 60) * 60) by lia.
    rewrite Z_mod_plus_full, (Z.mod_small (S + 1)) by lia.
    replace (S + 1 + (Mi + H * 60) * 60)
      with ((S + 1 + Mi * 60) + H * 3600) by lia.
    rewrite Z_mod_plus_full, (Z.mod_small (S + 1 + Mi * 60)) by lia.
    rewrite Z_div_plus_full, (Z.div_small (S + 1 + Mi * 60)) by lia.
    rewrite Z_div_plus_full, (Z.div_small (S + 1)) by lia.
    reflexivity.
  - rewrite (Z.mod_small (_ + 1) 86400) by lia.
    replace (H * 3600 + Mi * 60 + S + 1)
      with (0 + ((Mi + 1) + H * 60) * 60) by lia.
    rewrite Z_mod_plus_full, (Z.mod_small 0) by lia.
    replace (0 + ((Mi + 1) + H * 60) * 60)
      with ((Mi + 1) * 60 + H * 3600) by lia.
    rewrite Z_mod_plus_full, (Z.mod_small ((Mi + 1) * 60)) by lia.
    rewrite Z_div_plus_full, (Z.div_small ((Mi + 1) * 60)) by lia.
    rewrite Z.div_mul by lia. reflexivity.
  - rewrite (Z.mod_small (_ + 1) 86400) by lia.
    replace (H * 3600 + Mi * 60 + S + 1) with ((H + 1) * 3600) by lia.
    rewrite Z.div_mul, Z.mod_mul by lia.
    replace ((H + 1) * 3600) with ((H + 1) * 60 * 60) by lia.
    rewrite Z.mod_mul by lia. reflexivity.
  - replace (H * 3600 + Mi * 60 + S + 1) with 86400 by lia. reflexivity.
Qed.

Lemma add_one_second_carries_witness :
  valid (clock_of_Z 4 59 59)
  /\ state_after (add_seconds (py_int 1)) (clock_of_Z 4 59 59)
     = clock_of_Z 5 0 0.
Proof.
  split; [reflexivity|].
  apply (add_one_second_carries (PInt 4) (PInt 59) (PInt 59)). reflexivity.
Defined.

(** X7.  [from_seconds] followed by [to_seconds] reduces modulo a day: for
    every integer [t], of any sign, [from_seconds(t)] returns a clock whose
    [to_seconds()] is [t mod 86400], which is [t] itself when [t] is within
    0..86399; totals that differ by whole days give the same clock. *)
Theorem from_seconds_to_seconds (t : pyint) :
  exists c,
    from_seconds (VInt t) = Return c
    /\ to_seconds c = (c, Return (int_val t mod 86400))
    /\ (0 <= int_val t <= 86399 -> to_seconds c = (c, Return (int_val t)))
    /\ (forall k,
          from_seconds (py_int (int_val t + 86400 * k)) = Return c).
Proof.
  exists (time_of_day (int_val t)).
  split; [apply from_seconds_run|].
  assert (E : to_seconds (time_of_day (int_val t))
              = (time_of_day (int_val t), Return (int_val t mod 86400))).
  { destruct (seconds_of_time_fields (int_val t)) as [h [m [s [E S]]]].
    rewrite E, to_seconds_run, S, floor_mod_eq by lia. reflexivity. }
  split; [exact E|]. split.
  - intros R. rewrite E, Z.mod_small by lia. reflexivity.
  - intros k. unfold py_int. rewrite from_seconds_run. cbn [int_val].
    now rewrite time_of_day_period.
Qed.

Lemma from_seconds_to_seconds_witness :
  exists c,
    from_seconds (VInt (PInt 45296)) = Return c
    /\ to_seconds c = (c, Return 45296).
Proof.
  destruct (from_seconds_to_seconds (PInt 45296)) as [c [F [_ [S _]]]].
  exists c. split; [exact F|]. apply S. cbn. lia.
Defined.

(** X8.  [add_seconds] on a valid clock returns exactly when its argument is
    an instance of [int]; otherwise it raises the type error and the
    attributes are untouched.  [from_seconds] returns exactly when its
    argument is an instance of [int], and otherwise raises the type error:
    a float is refused even when its value is integral. *)
Theorem add_seconds_returns_iff_int c d :
  valid c ->
  (result_of (add_seconds d) c = Return tt <-> isinstance_int d = true)
  /\ (isinstance_int d = false ->
      add_seconds d c
      = (c, Raise (TypeError "Seconds to add must be an integer")))
  /\ (is_Return (from_seconds d) = isinstance_int d)
  /\ (isinstance_int d = false ->
      from_seconds d = Raise (TypeError "Total seconds must be an integer")).
Proof.
  intros V. destruct (valid_inv _ V) as [h [m [s [-> _]]]].
  destruct d as [d| | |]; unfold result_of;
    [rewrite add_seconds_run, from_seconds_run
    |rewrite !add_seconds_not_int, from_seconds_not_int by reflexivity ..];
    cbn; repeat split; try reflexivity; try discriminate.
Qed.

Lemma add_seconds_returns_iff_int_witness :
  valid (clock_of_Z 1 2 3)
  /\ add_seconds (VFloat 5 0) (clock_of_Z 1 2 3)
     = (clock_of_Z 1 2 3,
        Raise (TypeError "Seconds to add must be an integer"))
  /\ from_seconds (VStr "3600")
     = Raise (TypeError "Total seconds must be an integer").
Proof.
  split; [reflexivity|].
  pose proof (add_seconds_returns_iff_int (clock_of_Z 1 2 3) (VFloat 5 0)
                eq_refl) as [_ [A _]].
  pose proof (add_seconds_returns_iff_int (clock_of_Z 1 2 3) (VStr "3600")
                eq_refl) as [_ [_ [_ F]]].
  split; [apply A; reflexivity | apply F; reflexivity].
Defined.

(** X9.  The five reading methods never fail on an instance a program can
    hold and never change it: on every reachable instance [to_seconds],
    [__str__], [__repr__], [__hash__] and [__eq__] (against a reachable
    clock or a value of another type) return, and the attributes after the
    call are the attributes before it. *)
Theorem reading_methods_return hash_int hash_tuple c other :
  reachable c ->
  (match other with OClock o => reachable o | OVal _ => True end) ->
  (exists t, to_seconds c = (c, Return t))
  /\ (exists text, __str__ c = (c, Return text))
  /\ (exists text, __repr__ c = (c, Return text))
  /\ (exists n, __hash__ hash_int hash_tuple c = (c, Return n))
  /\ (exists r, __eq__ other c = (c, Return r)).
Proof.
  assert (RV : forall x, reachable x -> valid x).
  { induction 1 as [h m s x E | t x E | h m s x _ IH | d x _ IH].
    - eapply Clock_new_Return; eassumption.
    - eapply from_seconds_Return; eassumption.
    - now apply call_set_clock_preserves.
    - now apply add_seconds_preserves. }
  intros Rc Ro. destruct (valid_inv _ (RV _ Rc)) as [h [m [s [-> _]]]].
  repeat split; try (eexists; reflexivity).
  destruct other as [o|v].
  - destruct (valid_inv _ (RV _ Ro)) as [h' [m' [s' [-> _]]]].
    eexists. apply eq_run.
  - eexists. reflexivity.
Qed.

Lemma reading_methods_return_witness :
  exists t text1 text2 n r,
    to_seconds (clock_of_Z 0 0 0) = (clock_of_Z 0 0 0, Return t)
    /\ __str__ (clock_of_Z 0 0 0) = (clock_of_Z 0 0 0, Return text1)
    /\ __repr__ (clock_of_Z 0 0 0) = (clock_of_Z 0 0 0, Return text2)
    /\ __hash__ CPython.hash_int CPython.hash_tuple (clock_of_Z 0 0 0)
       = (clock_of_Z 0 0 0, Return n)
    /\ __eq__ (OVal VNone) (clock_of_Z 0 0 0) = (clock_of_Z 0 0 0, Return r).
Proof.
  destruct (reading_methods_return CPython.hash_int CPython.hash_tuple
              (clock_of_Z 0 0 0) (OVal VNone))
    as [[t T] [[x X] [[y Y] [[n N] [r R]]]]].
  - apply (reach_new None None None). reflexivity.
  - exact I.
  - exists t, x, y, n, r. repeat split; assumption.
Defined.

(** X10.  [add_seconds] and [from_seconds] store plain integers: whatever
    the clock held before (booleans included), after [add_seconds] returns
    the three attributes are [int] objects within the bounds, and the debug
    representation is [Clock(h, m, s)] in unpadded decimal digits.  The same
    holds for the clock [from_seconds] returns. *)
Theorem arithmetic_stores_integers c (d : pyint) :
  valid c ->
  (exists h m s,
     state_after (add_seconds (VInt d)) c = clock_of_Z h m s
     /\ 0 <= h <= 23 /\ 0 <= m <= 59 /\ 0 <= s <= 59
     /\ result_of __repr__ (state_after (add_seconds (VInt d)) c)
        = Return ("Clock(" ++ unpadded h ++ ", " ++ unpadded m ++ ", "
                  ++ unpadded s ++ ")"))
  /\ (exists h m s,
        from_seconds (VInt d) = Return (clock_of_Z h m s)
        /\ 0 <= h <= 23 /\ 0 <= m <= 59 /\ 0 <= s <= 59
        /\ result_of __repr__ (clock_of_Z h m s)
           = Return ("Clock(" ++ unpadded h ++ ", " ++ unpadded m ++ ", "
                     ++ unpadded s ++ ")")).
Proof.
  intros V. destruct (valid_inv _ V) as [h [m [s [-> _]]]].
  assert (T : forall t, exists a b e,
             time_of_day t = clock_of_Z a b e
             /\ 0 <= a <= 23 /\ 0 <= b <= 59 /\ 0 <= e <= 59
             /\ result_of __repr__ (clock_of_Z a b e)
                = Return ("Clock(" ++ unpadded a ++ ", " ++ unpadded b ++ ", "
                          ++ unpadded e ++ ")")).
  { intros t. pose proof (time_of_day_valid t) as Vt.
    unfold time_of_day in *. set (r := floor_mod t 86400) in *.
    apply valid_clock_of in Vt. cbn [int_val] in Vt.
    destruct Vt as [Ha [Hb He]].
    eexists _, _, _. split; [reflexivity|]. repeat split; try lia.
    rewrite <- !py_str_int_unpadded by lia. reflexivity. }
  split.
  - rewrite state_after_add_seconds.
    destruct (T (seconds_of h m s + int_val d)) as [a [b [e [E R]]]].
    exists a, b, e. rewrite E. split; [reflexivity | exact R].
  - rewrite from_seconds_run.
    destruct (T (int_val d)) as [a [b [e [E R]]]].
    exists a, b, e. rewrite E. split; [reflexivity | exact R].
Qed.

Lemma arithmetic_stores_integers_witness :
  valid (clock_of (PBool true) (PBool false) (PBool false))
  /\ exists h m s,
       state_after (add_seconds (VInt (PInt 0)))
         (clock_of (PBool true) (PBool false) (PBool false))
       = clock_of_Z h m s
       /\ 0 <= h <= 23 /\ 0 <= m <= 59 /\ 0 <= s <= 59
       /\ result_of __repr__
            (state_after (add_seconds (VInt (PInt 0)))
               (clock_of (PBool true) (PBool false) (PBool false)))
          = Return ("Clock(" ++ unpadded h ++ ", " ++ unpadded m ++ ", "
                    ++ unpadded s ++ ")").
Proof.
  split; [reflexivity|].
  apply (arithmetic_stores_integers
           (clock_of (PBool true) (PBool false) (PBool false)) (PInt 0)).
  reflexivity.
Defined.

Lemma str_run h m s :
  0 <= int_val h <= 59 -> 0 <= int_val m <= 59 -> 0 <= int_val s <= 59 ->
  result_of __str__ (clock_of h m s)
  = Return (two_digits (int_val h) ++ ":" ++ two_digits (int_val m) ++ ":"
            ++ two_digits (int_val s)).
Proof.
  intros Hh Hm Hs.
  unfold result_of, __str__, bind, get_hours, get_minutes, get_seconds,
    get_attr, ret, clock_of. cbn [hours minutes seconds snd].
  rewrite !format_02d_two_digits by lia. reflexivity.
Qed.

Lemma digit_char_inj a b :
  0 <= a <= 9 -> 0 <= b <= 9 -> digit_char a = digit_char b -> a = b.
Proof.
  intros Ha Hb E. apply (f_equal nat_of_ascii) in E. unfold digit_char in E.
  rewrite !nat_ascii_embedding in E by lia. lia.
Qed.

Lemma two_digits_inj a b :
  0 <= a <= 59 -> 0 <= b <= 59 -> two_digits a = two_digits b -> a = b.
Proof.
  intros Ha Hb E. unfold two_digits in E. injection E as E1 E2.
  apply digit_char_inj in E1; [|Z.div_mod_to_equations; lia ..].
  apply digit_char_inj in E2; [|Z.div_mod_to_equations; lia ..].
  rewrite (Z.div_mod a 10), (Z.div_mod b 10) by lia. congruence.
Qed.

(** X11.  The display string tells valid clocks apart exactly as [==] does:
    two valid clocks display the same [HH:MM:SS] text if and only if they
    are equal. *)
Theorem str_agrees_with_eq c1 c2 :
  valid c1 -> valid c2 ->
  (result_of __str__ c1 = result_of __str__ c2
   <-> result_of (__eq__ (OClock c2)) c1 = Return (Bool true)).
Proof.
  intros V1 V2.
  destruct (valid_inv _ V1) as [h [m [s [-> [Hh [Hm Hs]]]]]].
  destruct (valid_inv _ V2) as [h' [m' [s' [-> [Hh' [Hm' Hs']]]]]].
  rewrite eq_true_iff, !str_run by lia. split.
  - unfold two_digits. cbn [append]. intros E.
    injection E as E1 E2 E3 E4 E5 E6.
    repeat split; apply two_digits_inj; try lia; unfold two_digits;
      congruence.
  - intros [-> [-> ->]]. reflexivity.
Qed.

Lemma str_agrees_with_eq_witness :
  valid (clock_of (PBool true) (PInt 5) (PInt 0))
  /\ valid (clock_of_Z 1 5 0)
  /\ (result_of __str__ (clock_of (PBool true) (PInt 5) (PInt 0))
      = result_of __str__ (clock_of_Z 1 5 0)
      <-> result_of (__eq__ (OClock (clock_of_Z 1 5 0)))
            (clock_of (PBool true) (PInt 5) (PInt 0)) = Return (Bool true)).
Proof.
  split; [reflexivity|]. split; [reflexivity|].
  apply str_agrees_with_eq; reflexivity.
Defined.

(** X12.  The debug representation determines the attributes: two valid
    clocks have the same [__repr__] text if and only if they hold the same
    three attributes, so it separates a boolean field from the integer of
    the same value, which [==] and the display string do not. *)
Theorem repr_determines_attributes c1 c2 :
  valid c1 -> valid c2 ->
  (result_of __repr__ c1 = result_of __repr__ c2 <-> c1 = c2).
Proof.
  intros V1 V2. split; [|intros ->; reflexivity].
  destruct (valid_inv _ V1) as [h [m [s [-> [Hh [Hm Hs]]]]]].
  destruct (valid_inv _ V2) as [h' [m' [s' [-> [Hh' [Hm' Hs']]]]]].
  change (result_of __repr__ (clock_of h m s))
    with (Return ("Clock(" ++ py_str h ++ ", " ++ py_str m ++ ", "
                  ++ py_str s ++ ")")).
  change (result_of __repr__ (clock_of h' m' s'))
    with (Return ("Clock(" ++ py_str h' ++ ", " ++ py_str m' ++ ", "
                  ++ py_str s' ++ ")")).
  intros E.
  apply (f_equal (fun o => match o with
                           | Return text => eval_constructor_call text
                           | Raise _ => None
                           end)) in E.
  cbv beta iota in E. rewrite !eval_repr_text in E by assumption.
  congruence.
Qed.

Lemma repr_determines_attributes_witness :
  valid (clock_of (PBool true) (PInt 0) (PInt 0))
  /\ valid (clock_of_Z 1 0 0)
  /\ clock_of (PBool true) (PInt 0) (PInt 0) <> clock_of_Z 1 0 0
  /\ result_of __repr__ (clock_of (PBool true) (PInt 0) (PInt 0))
     <> result_of __repr__ (clock_of_Z 1 0 0).
Proof.
  split; [reflexivity|]. split; [reflexivity|]. split; [discriminate|].
  intros E.
  apply (repr_determines_attributes
           (clock_of (PBool true) (PInt 0) (PInt 0)) (clock_of_Z 1 0 0))
    in E; [discriminate E | reflexivity | reflexivity].
Defined.

(** X13.  What the loop does: a total that is not negative passes through
    unchanged, and a negative total comes out as its remainder modulo 86400,
    already within 0..86399, so that the reduction after the loop changes
    nothing in that case. *)
Theorem while_negative_result t :
  (0 <= t -> while_negative t = t)
  /\ (t < 0 ->
      while_negative t = t mod 86400
      /\ while_negative t mod (24 * 3600) = while_negative t).
Proof.
  split; [apply while_negative_nonneg|].
  assert (B : t < 0 -> 0 <= while_negative t < 86400).
  { funelim (while_negative t); [|lia].
    intros _. destruct (Z_lt_dec (total_seconds + 24 * 3600) 0) as [N|N].
    - auto.
    - rewrite while_negative_nonneg by lia. lia. }
  intros N. specialize (B N).
  destruct (while_negative_spec t) as [_ [k [_ E]]].
  change (24 * 3600) with 86400.
  rewrite (Z.mod_small (while_negative t)) by lia. split; [|reflexivity].
  apply Z.mod_unique_pos with (q := - k); lia.
Qed.

Lemma while_negative_result_witness :
  while_negative 90000 = 90000
  /\ while_negative (-90000) = (-90000) mod 86400
  /\ while_negative (-90000) mod (24 * 3600) = while_negative (-90000).
Proof.
  split.
  - apply (proj1 (while_negative_result 90000)). lia.
  - apply (proj2 (while_negative_result (-90000))). lia.
Defined.

(** X14.  [set_clock] on any instance does what the constructor does with
    the same arguments: when [Clock(h, m, s)] returns a clock, [set_clock]
    returns and leaves the receiver with that clock's attributes, whatever
    it held before; when the constructor raises, [set_clock] raises the same
    exception and the receiver is unchanged. *)
Theorem set_clock_as_constructor h m s self :
  match Clock_of_args h m s with
  | Return c => set_clock h m s self = (c, Return tt)
  | Raise e => set_clock h m s self = (self, Raise e)
  end.
Proof.
  rewrite Clock_of_args_eq. unfold set_clock.
  destruct (as_int h) as [ih|], (as_int m) as [im|], (as_int s) as [is_|];
    try reflexivity.
  destruct (in_range 0 ih 24); cbn [negb]; [|reflexivity].
  destruct (in_range 0 im 60); cbn [negb]; [|reflexivity].
  destruct (in_range 0 is_ 60); cbn [negb]; reflexivity.
Qed.

(** X15.  [from_seconds(t)] is midnight plus [t] seconds: for every instance
    of [int] [t], the clock that [from_seconds(t)] returns has the
    attributes that [add_seconds(t)] leaves on a clock constructed without
    arguments. *)
Theorem from_seconds_is_midnight_plus (t : pyint) :
  exists midnight,
    Clock_new None None None = Return midnight
    /\ result_of (add_seconds (VInt t)) midnight = Return tt
    /\ from_seconds (VInt t)
       = Return (state_after (add_seconds (VInt t)) midnight).
Proof.
  exists (clock_of_Z 0 0 0). split; [reflexivity|].
  unfold clock_of_Z, result_of. rewrite state_after_add_seconds.
  rewrite add_seconds_run, from_seconds_run. cbn [snd].
  split; [reflexivity|]. reflexivity.
Qed.

(** X16.  [set_clock] and the constructor accept exactly the times of day:
    the call returns if and only if the three arguments are instances of
    [int] with hours within 0..23, minutes within 0..59 and seconds within
    0..59, and it then leaves exactly those three objects as the
    attributes. *)
Theorem set_clock_returns_iff h m s self :
  (result_of (set_clock h m s) self = Return tt
   <-> exists ih im is_,
         h = VInt ih /\ m = VInt im /\ s = VInt is_
         /\ 0 <= int_val ih <= 23 /\ 0 <= int_val im <= 59
         /\ 0 <= int_val is_ <= 59)
  /\ (result_of (set_clock h m s) self = Return tt ->
      exists ih im is_,
        h = VInt ih /\ m = VInt im /\ s = VInt is_
        /\ state_after (set_clock h m s) self = clock_of ih im is_
        /\ Clock_of_args h m s = Return (clock_of ih im is_)).
Proof.
  assert (K : result_of (set_clock h m s) self = Return tt ->
              exists ih im is_,
                h = VInt ih /\ m = VInt im /\ s = VInt is_
                /\ valid (clock_of ih im is_)
                /\ set_clock h m s self = (clock_of ih im is_, Return tt)).
  { unfold result_of.
    destruct (set_clock_cases h m s self)
      as [[e [E _]] | [ih [im [is_ [Eh [Em [Es [V E]]]]]]]]; rewrite E;
      cbn [snd]; [discriminate|].
    intros _. exists ih, im, is_. auto. }
  split; [split|].
  - intros R. destruct (K R) as [ih [im [is_ [-> [-> [-> [V _]]]]]]].
    apply valid_clock_of in V. exists ih, im, is_. tauto.
  - intros [ih [im [is_ [-> [-> [-> [Hh [Hm Hs]]]]]]]].
    unfold result_of. rewrite set_clock_ok by assumption. reflexivity.
  - intros R. destruct (K R) as [ih [im [is_ [-> [-> [-> [V E]]]]]]].
    apply valid_clock_of in V. exists ih, im, is_.
    unfold state_after. rewrite E. repeat split.
    apply Clock_of_args_ok; tauto.
Qed.

Lemma set_clock_returns_iff_witness :
  result_of (set_clock (VInt (PBool true)) (py_int 59) (py_int 0))
            (clock_of_Z 4 5 6) = Return tt
  /\ exists ih im is_,
       VInt (PBool true) = VInt ih /\ py_int 59 = VInt im
       /\ py_int 0 = VInt is_
       /\ state_after (set_clock (VInt (PBool true)) (py_int 59) (py_int 0))
            (clock_of_Z 4 5 6) = clock_of ih im is_
       /\ Clock_of_args (VInt (PBool true)) (py_int 59) (py_int 0)
          = Return (clock_of ih im is_).
Proof.
  split; [reflexivity|].
  apply (proj2 (set_clock_returns_iff (VInt (PBool true)) (py_int 59)
                  (py_int 0) (clock_of_Z 4 5 6))).
  reflexivity.
Defined.
